(** * TaskModel: the task store of script.js

    A shallow embedding of the [TaskModel] module of [script.js] (the
    closure holding [tasks] and [observers]) together with the properties
    of its public operations.

    JavaScript arrays and task objects are mutable and shared, so both live
    in a heap and are handled through references.  The clock, the random
    generator, [localStorage] and the observer callbacks belong to the
    environment: clock and random readings are arguments of the operation
    that performs them, the storage slot is part of the state, and every
    interaction with the outside is recorded in a trace. *)

From Stdlib Require Import NArith ZArith String Ascii DecimalString DecimalN.
From stdpp Require Import base tactics option list numbers.

Open Scope Z_scope.
Open Scope nat_scope.
Open Scope list_scope.

(** ** JavaScript values *)

(** A string is its sequence of UTF-16 code units. *)
Definition JsString := list N.

(** The code units of an ASCII literal. *)
Definition str (s : string) : JsString :=
  map N_of_ascii (list_ascii_of_string s).

(** The primitive values a task field or an argument can hold.  [JNum]
    stands for the integral numbers. *)
Inductive JsVal :=
| JUndefined
| JNull
| JBool (b : bool)
| JNum (n : Z)
| JStr (s : JsString).

(** Strict equality [===] of two primitives is equality of the values. *)
Global Instance JsVal_eq_dec : EqDecision JsVal.
Proof. solve_decision. Defined.

(** ToBoolean. *)
Definition truthy (v : JsVal) : bool :=
  match v with
  | JUndefined | JNull => false
  | JBool b => b
  | JNum n => negb (n =? 0)%Z
  | JStr s => match s with [] => false | _ => true end
  end.

(** [a || b]. *)
Definition jsOr (a b : JsVal) : JsVal := if truthy a then a else b.

(** What a call can throw. *)
Inductive Exn :=
| Error (message : string)
| TypeError.

(** ** String.prototype builtins *)

(** WhiteSpace and LineTerminator code units of ECMAScript, the ones
    [trim] strips. *)
Definition isWhiteSpace (c : N) : bool :=
  ((9 <=? c) && (c <=? 13) || (c =? 32) || (c =? 160) || (c =? 5760)
   || (8192 <=? c) && (c <=? 8202) || (c =? 8232) || (c =? 8233)
   || (c =? 8239) || (c =? 8287) || (c =? 12288) || (c =? 65279))%N.

Fixpoint trimStart (s : JsString) : JsString :=
  match s with
  | c :: s' => if isWhiteSpace c then trimStart s' else s
  | [] => []
  end.

Definition trimEnd (s : JsString) : JsString := rev (trimStart (rev s)).

Definition trim (s : JsString) : JsString := trimEnd (trimStart s).

(** [s.substr(start, length)] for non-negative arguments. *)
Definition substr (start len : nat) (s : JsString) : JsString :=
  take len (drop start s).

(** [n.toString()] of a non-negative integer. *)
Definition toStringN (n : N) : JsString :=
  str (NilZero.string_of_uint (N.to_uint n)).

(** ** Tasks *)

Record Task := mkTask {
  id : JsString;
  text : JsString;
  completed : bool;
  createdAt : JsString;
  completedAt : JsVal;   (* [JUndefined] while the property is absent *)
  dueDate : JsVal;
  priority : JsVal
}.

(** The argument of [addTask]; a property the caller left out reads as
    [JUndefined]. *)
Record TaskData := mkTaskData {
  td_text : JsVal;
  td_dueDate : JsVal;
  td_priority : JsVal
}.

Global Instance Task_inhabited : Inhabited Task :=
  populate (mkTask [] [] false [] JUndefined JUndefined JUndefined).

(** ** The heap *)

Definition ARef := nat.   (* reference to an array *)
Definition ORef := nat.   (* reference to a task object *)

Record Heap := mkHeap {
  arrays : list (list ORef);
  objects : list Task
}.

Definition readArray (a : ARef) (h : Heap) : list ORef :=
  default [] (arrays h !! a).

Definition writeArray (a : ARef) (l : list ORef) (h : Heap) : Heap :=
  mkHeap (<[a := l]> (arrays h)) (objects h).

Definition newArray (l : list ORef) (h : Heap) : ARef * Heap :=
  (length (arrays h), mkHeap (arrays h ++ [l]) (objects h)).

Definition deref (h : Heap) (o : ORef) : Task := objects h !!! o.

Definition writeObject (o : ORef) (t : Task) (h : Heap) : Heap :=
  mkHeap (arrays h) (<[o := t]> (objects h)).

Definition newObject (t : Task) (h : Heap) : ORef * Heap :=
  (length (objects h), mkHeap (arrays h) (objects h ++ [t])).

(** ** Array.prototype builtins

    The arrays of the store hold task references; a callback reads the
    task behind each element. *)

Definition arrayFilter (p : Task -> bool) (h : Heap) (l : list ORef)
  : list ORef :=
  List.filter (fun o => p (deref h o)) l.

Fixpoint arrayFind (p : Task -> bool) (h : Heap) (l : list ORef)
  : option ORef :=
  match l with
  | [] => None
  | o :: l' => if p (deref h o) then Some o else arrayFind p h l'
  end.

(** [findIndex] answers -1 when no element satisfies the callback. *)
Fixpoint findIndexFrom (p : Task -> bool) (h : Heap) (l : list ORef) (i : Z)
  : Z :=
  match l with
  | [] => (-1)%Z
  | o :: l' => if p (deref h o) then i else findIndexFrom p h l' (i + 1)%Z
  end.

Definition arrayFindIndex (p : Task -> bool) (h : Heap) (l : list ORef) : Z :=
  findIndexFrom p h l 0%Z.

(** [l.splice(start, deleteCount, ...items)]: the removed elements and the
    array as it is left. *)
Definition splice (start deleteCount : Z) (items l : list ORef)
  : list ORef * list ORef :=
  let len := Z.of_nat (length l) in
  let actualStart :=
    if (start <? 0)%Z then Z.max (len + start) 0 else Z.min start len in
  let actualDeleteCount :=
    Z.min (Z.max deleteCount 0) (len - actualStart) in
  let s := Z.to_nat actualStart in
  let d := Z.to_nat actualDeleteCount in
  (take d (drop s l), take s l ++ items ++ drop (s + d) l).

(** ** The state of the module and of its environment *)

Inductive Completion :=
| Normal
| Abrupt (e : Exn).

(** An observer receives an array and may read or write whatever it can
    reach from it. *)
Definition Callback := ARef -> Heap -> Completion * Heap.

(** The text under the key "tasks": the JSON of a task array, given by the
    array it encodes, or a text [JSON.parse] rejects. *)
Inductive Stored :=
| Json (ts : list Task)
| Corrupt.

Record Storage := mkStorage {
  item : option Stored;
  quotaExceeded : bool   (* [setItem] throws *)
}.

Inductive Event :=
| SetItem (value : list Task)        (* localStorage.setItem("tasks", _) *)
| Warn                               (* console.warn *)
| Call (k : nat) (arg : ARef).       (* the k-th observer called with arg *)

Record State := mkState {
  heap : Heap;
  tasks : ARef;                (* let tasks *)
  observers : list Callback;   (* let observers *)
  localStorage : Storage;
  trace : list Event
}.

Inductive Outcome (A : Type) :=
| Return (v : A) (st : State)
| Throw (e : Exn) (st : State).
Arguments Return {A} v st.
Arguments Throw {A} e st.

Definition andThen {A B : Type} (m : Outcome A) (k : A -> State -> Outcome B)
  : Outcome B :=
  match m with
  | Return v st => k v st
  | Throw e st => Throw e st
  end.

Definition finalState {A : Type} (m : Outcome A) : State :=
  match m with
  | Return _ st => st
  | Throw _ st => st
  end.

Definition setHeap (h : Heap) (st : State) : State :=
  mkState h (tasks st) (observers st) (localStorage st) (trace st).

Definition setTasks (a : ARef) (st : State) : State :=
  mkState (heap st) a (observers st) (localStorage st) (trace st).

Definition emit (es : list Event) (st : State) : State :=
  mkState (heap st) (tasks st) (observers st) (localStorage st)
          (trace st ++ es).

(** The task references of the live array, and the tasks behind them. *)
Definition taskSeq (st : State) : list ORef := readArray (tasks st) (heap st).

Definition storeTasks (st : State) : list Task :=
  map (deref (heap st)) (taskSeq st).

(** The module right after its definition: [tasks = []], [observers = []]. *)
Definition init (ls : Storage) : State :=
  mkState (mkHeap [[]] []) 0 [] ls [].

(** ** TaskModel *)

Module TaskModel.

(** [observers.forEach((callback) => callback(tasks))]: [tasks] is read at
    each call, and an exception ends the iteration. *)
Fixpoint forEachObserver (cbs : list Callback) (k : nat) (st : State)
  : Outcome unit :=
  match cbs with
  | [] => Return tt st
  | cb :: rest =>
      let arg := tasks st in
      let (c, h) := cb arg (heap st) in
      let st' := emit [Call k arg] (setHeap h st) in
      match c with
      | Normal => forEachObserver rest (S k) st'
      | Abrupt e => Throw e st'
      end
  end.

Definition notifyObservers (st : State) : Outcome unit :=
  forEachObserver (observers st) 0 st.

Definition generateId (now : N) (random36 : JsString) : JsString :=
  toStringN now ++ substr 2 9 random36.

Definition subscribe (callback : Callback) (st : State) : State :=
  mkState (heap st) (tasks st) (observers st ++ [callback])
          (localStorage st) (trace st).

Definition getAllTasks (st : State) : ARef * State :=
  let (a, h) := newArray (taskSeq st) (heap st) in (a, setHeap h st).

Definition getFilteredTasks (filter : JsVal) (st : State) : ARef * State :=
  let result :=
    if bool_decide (filter = JStr (str "completed")) then
      arrayFilter (fun task => completed task) (heap st) (taskSeq st)
    else if bool_decide (filter = JStr (str "pending")) then
      arrayFilter (fun task => negb (completed task)) (heap st) (taskSeq st)
    else taskSeq st in
  let (a, h) := newArray result (heap st) in (a, setHeap h st).

(** [JSON.stringify(tasks)] is given by the tasks it encodes.  A failing
    [setItem] is caught and reported on the console. *)
Definition saveTasks (st : State) : State :=
  let json := storeTasks st in
  if quotaExceeded (localStorage st) then emit [SetItem json; Warn] st
  else
    emit [SetItem json]
      (mkState (heap st) (tasks st) (observers st)
               (mkStorage (Some (Json json)) false) (trace st)).

(** [now] is the reading of [Date.now()], [random36] the text of
    [Math.random().toString(36)] and [iso] that of
    [new Date().toISOString()].  The new object enters the heap when it is
    stored: the one a throw drops is unreachable. *)
Definition addTask (now : N) (random36 iso : JsString) (taskData : TaskData)
    (st : State) : Outcome ORef :=
  let newId := generateId now random36 in
  match td_text taskData with
  | JStr s =>
      let newTask :=
        mkTask newId (trim s) false iso JUndefined
               (jsOr (td_dueDate taskData) JNull)
               (jsOr (td_priority taskData) (JStr (str "medium"))) in
      match text newTask with
      | [] => Throw (Error "Task text cannot be empty") st
      | _ =>
          let (o, h) := newObject newTask (heap st) in
          let h' := writeArray (tasks st) (o :: readArray (tasks st) h) h in
          andThen (notifyObservers (saveTasks (setHeap h' st)))
                  (fun _ st' => Return o st')
      end
  | _ => Throw TypeError st   (* no [trim] to call *)
  end.

Definition toggleTask (iso : JsString) (taskId : JsString) (st : State)
  : Outcome unit :=
  match arrayFind (fun t => bool_decide (id t = taskId))
                  (heap st) (taskSeq st) with
  | Some o =>
      let task := deref (heap st) o in
      let c := negb (completed task) in
      let task' :=
        mkTask (id task) (text task) c (createdAt task)
               (if c then JStr iso else JNull)
               (dueDate task) (priority task) in
      notifyObservers (saveTasks (setHeap (writeObject o task' (heap st)) st))
  | None => Return tt st
  end.

(** [tasks = tasks.filter(...)] binds [tasks] to a new array. *)
Definition deleteTask (taskId : JsString) (st : State) : Outcome bool :=
  let initialLength := length (taskSeq st) in
  let (a, h) :=
    newArray (arrayFilter (fun t => negb (bool_decide (id t = taskId)))
                          (heap st) (taskSeq st)) (heap st) in
  let st1 := setTasks a (setHeap h st) in
  if bool_decide (length (taskSeq st1) <> initialLength) then
    andThen (notifyObservers (saveTasks st1)) (fun _ st' => Return true st')
  else Return false st1.

Definition reorderTasks (draggedTaskId targetTaskId : JsString) (st : State)
  : Outcome bool :=
  let draggedIndex :=
    arrayFindIndex (fun t => bool_decide (id t = draggedTaskId))
                   (heap st) (taskSeq st) in
  let targetIndex :=
    arrayFindIndex (fun t => bool_decide (id t = targetTaskId))
                   (heap st) (taskSeq st) in
  if ((draggedIndex =? -1) || (targetIndex =? -1))%Z then Return false st
  else
    let (removed, l1) := splice draggedIndex 1 [] (taskSeq st) in
    let st1 := setHeap (writeArray (tasks st) l1 (heap st)) st in
    (* const [draggedTask] = removed *)
    let (_, l2) := splice targetIndex 0 (take 1 removed) (taskSeq st1) in
    let st2 := setHeap (writeArray (tasks st1) l2 (heap st1)) st1 in
    andThen (notifyObservers (saveTasks st2)) (fun _ st' => Return true st').

Record Stats := mkStats { total : Z; completedCount : Z; pending : Z }.

Definition getStats (st : State) : Stats :=
  let total := Z.of_nat (length (taskSeq st)) in
  let completed :=
    Z.of_nat (length (arrayFilter (fun t => completed t)
                                  (heap st) (taskSeq st))) in
  let pending := (total - completed)%Z in
  mkStats total completed pending.

(** The [catch] of [loadTasks]: warn, then [tasks = []]. *)
Definition loadFailed (st : State) : State :=
  let (a, h) := newArray [] (heap st) in
  setTasks a (setHeap h (emit [Warn] st)).

(** [JSON.parse] builds new objects and a new array; an exception of an
    observer is caught like one of the parser. *)
Definition loadTasks (st : State) : State :=
  match item (localStorage st) with
  | None => st
  | Some Corrupt => loadFailed st
  | Some (Json ts) =>
      let os := seq (length (objects (heap st))) (length ts) in
      let h1 := mkHeap (arrays (heap st)) (objects (heap st) ++ ts) in
      let (a, h2) := newArray os h1 in
      match notifyObservers (setTasks a (setHeap h2 st)) with
      | Return _ st' => st'
      | Throw _ st' => loadFailed st'
      end
  end.

End TaskModel.

Import TaskModel.

(** ** ThemeManager *)

Module ThemeManager.

(** The closure variable of the module and what it reaches of the page:
    the [data-theme] attribute of the document element, the text of the
    [#themeToggle] button when the page has one, the item "theme" of
    [localStorage], whether reading or writing the storage throws, the
    answer of the media query and the count of console warnings. *)
Record Page := mkPage {
  currentTheme : JsString;      (* let currentTheme *)
  dataTheme : option JsString;
  toggleBtn : option JsString;
  savedTheme : option JsString;
  getItemThrows : bool;
  setItemThrows : bool;
  prefersDark : bool;
  warnings : nat
}.

Definition dark : JsString := str "dark".
Definition light : JsString := str "light".
Definition sun : JsString := [9728; 65039]%N.
Definition moon : JsString := [55356; 57113]%N.

Definition applyTheme (theme : JsString) (pg : Page) : Page :=
  mkPage theme (Some theme)
         (match toggleBtn pg with
          | Some _ => Some (if bool_decide (theme = dark) then sun else moon)
          | None => None
          end)
         (savedTheme pg) (getItemThrows pg) (setItemThrows pg)
         (prefersDark pg) (warnings pg).

Definition getSystemPreference (pg : Page) : JsString :=
  if prefersDark pg then dark else light.

Definition warn (pg : Page) : Page :=
  mkPage (currentTheme pg) (dataTheme pg) (toggleBtn pg) (savedTheme pg)
         (getItemThrows pg) (setItemThrows pg) (prefersDark pg)
         (S (warnings pg)).

Definition init (pg : Page) : Page :=
  if getItemThrows pg then
    let pg' := warn pg in applyTheme (getSystemPreference pg') pg'
  else
    let preferredTheme :=
      match savedTheme pg with
      | Some (c :: s) => c :: s
      | _ => getSystemPreference pg      (* null or "" *)
      end in
    applyTheme preferredTheme pg.

Definition toggle (pg : Page) : Page :=
  let newTheme :=
    if bool_decide (currentTheme pg = dark) then light else dark in
  let pg' := applyTheme newTheme pg in
  if setItemThrows pg' then warn pg'
  else
    mkPage (currentTheme pg') (dataTheme pg') (toggleBtn pg') (Some newTheme)
           (getItemThrows pg') (setItemThrows pg') (prefersDark pg')
           (warnings pg').

Definition getCurrentTheme (pg : Page) : JsString := currentTheme pg.

(** The page as the script finds it, with the storage of a visit. *)
Definition fresh (saved : option JsString) (prefers : bool) : Page :=
  mkPage light None (Some []) saved false false prefers 0.

End ThemeManager.

(** ** Vocabulary of the properties *)

(** The ids of the stored tasks, in order. *)
Definition ids (st : State) : list JsString := map id (storeTasks st).


(** References are never dangling: [tasks] names an array of the heap and
    its elements name objects of the heap. *)
Definition wf (st : State) : Prop :=
  tasks st < length (arrays (heap st)) /\
  Forall (fun o => o < length (objects (heap st))) (taskSeq st).

(** An observer that returns and leaves the heap as it found it. *)
Definition passive (cb : Callback) : Prop := forall a h, cb a h = (Normal, h).

(** What [saveTasks] and [notifyObservers] add to the trace of a state. *)
Definition persisted (st : State) : list Event :=
  SetItem (storeTasks st)
  :: (if quotaExceeded (localStorage st) then [Warn] else []).

Definition notified (st : State) : list Event :=
  map (fun k => Call k (tasks st)) (seq 0 (length (observers st))).

(** [completedAt] holds a timestamp, as opposed to being absent
    ([undefined]) or cleared ([null]). *)
Definition isTimestamp (v : JsVal) : bool :=
  match v with
  | JStr _ => true
  | _ => false
  end.

(** The task [toggleTask] leaves in place of [t] when the clock reads
    [iso]. *)
Definition toggled (iso : JsString) (t : Task) : Task :=
  mkTask (id t) (text t) (negb (completed t)) (createdAt t)
         (if negb (completed t) then JStr iso else JNull)
         (dueDate t) (priority t).

(** The task [addTask] builds from a text [s], and the state once the
    task is at the front of the live array. *)
Definition newTaskOf (now : N) (random36 iso : JsString) (taskData : TaskData)
    (s : JsString) : Task :=
  mkTask (generateId now random36) (trim s) false iso JUndefined
         (jsOr (td_dueDate taskData) JNull)
         (jsOr (td_priority taskData) (JStr (str "medium"))).

Definition unshifted (t : Task) (st : State) : State :=
  setHeap (writeArray (tasks st)
             (length (objects (heap st))
              :: readArray (tasks st) (snd (newObject t (heap st))))
             (snd (newObject t (heap st)))) st.

(** Two facts about every stored task that the operations maintain: the
    text is trimmed and not empty, and [completedAt] is a timestamp exactly
    when the task is completed. *)
Definition textTrimmed (t : Task) : Prop :=
  text t <> [] /\ trim (text t) = text t.

Definition completionDated (t : Task) : Prop :=
  isTimestamp (completedAt t) = completed t.

(** A session: observers are registered on the new module, then the
    page calls the four mutations in some order, each call ending by a
    return or by a throw. *)
Inductive Mutation :=
| Add (now : N) (random36 iso : JsString) (taskData : TaskData)
| Toggle (iso taskId : JsString)
| Delete (taskId : JsString)
| Reorder (draggedTaskId targetTaskId : JsString).

Definition perform (m : Mutation) (st : State) : State :=
  match m with
  | Add now random36 iso taskData =>
      finalState (addTask now random36 iso taskData st)
  | Toggle iso taskId => finalState (toggleTask iso taskId st)
  | Delete taskId => finalState (deleteTask taskId st)
  | Reorder draggedTaskId targetTaskId =>
      finalState (reorderTasks draggedTaskId targetTaskId st)
  end.

Definition session (ls : Storage) (cbs : list Callback) (ms : list Mutation)
  : State :=
  fold_left (fun st m => perform m st) ms
            (fold_left (fun st cb => subscribe cb st) cbs (init ls)).

(** A session used as an example: two tasks added, one toggled, a blank
    text refused, a drag and a deletion. *)
Definition sampleMutations : list Mutation :=
  [Add 1700000000000 (str "0.k2x9") (str "2023-11-14T22:13:20.000Z")
       (mkTaskData (JStr (str "Buy milk")) JUndefined JUndefined);
   Add 1700000000001 (str "0.8f3a") (str "2023-11-14T22:13:20.001Z")
       (mkTaskData (JStr (str "  Walk dog ")) (JStr (str "2023-12-01"))
                   (JStr (str "high")));
   Toggle (str "2023-11-14T22:14:00.000Z")
          (generateId 1700000000000 (str "0.k2x9"));
   Add 1700000000002 (str "0.zz1") (str "2023-11-14T22:13:20.002Z")
       (mkTaskData (JStr (str "   ")) JUndefined JUndefined);
   Reorder (generateId 1700000000000 (str "0.k2x9"))
           (generateId 1700000000001 (str "0.8f3a"));
   Delete (generateId 1700000000001 (str "0.8f3a"))].

(** The fields of a task that say what it is. *)
Definition sameDetails (t t' : Task) : Prop :=
  id t' = id t /\ text t' = text t /\ createdAt t' = createdAt t /\
  dueDate t' = dueDate t /\ priority t' = priority t.

(** The array and the state a getter answers. *)
Definition answer (r : ARef * State) : list ORef :=
  readArray (fst r) (heap (snd r)).

(** ** Sample observers and stores *)

(** An observer that only looks at what it receives. *)
Definition render : Callback := fun _ h => (Normal, h).

(** An observer that runs [received.length = 0]. *)
Definition clearReceived : Callback :=
  fun a h => (Normal, writeArray a [] h).

Definition taskText (s : string) : TaskData :=
  mkTaskData (JStr (str s)) JUndefined JUndefined.

Definition emptyStorage : Storage := mkStorage None false.

(** The scenario of the specification: start empty, add "Buy milk", then
    "Walk dog" one millisecond later. *)
Definition store0 : State := subscribe render (init emptyStorage).

Definition store1 : State :=
  finalState (addTask 1700000000000 (str "0.k2x9") (str "2023-11-14T22:13:20.000Z")
                      (taskText "Buy milk") store0).

Definition store2 : State :=
  finalState (addTask 1700000000001 (str "0.8f3a") (str "2023-11-14T22:13:20.001Z")
                      (taskText "Walk dog") store1).

Definition milkId : JsString := generateId 1700000000000 (str "0.k2x9").
Definition dogId : JsString := generateId 1700000000001 (str "0.8f3a").

(** [store2] once "Buy milk" has been completed. *)
Definition doneStore : State :=
  finalState (toggleTask (str "2023-11-14T22:14:00.000Z") milkId store2).

(** A store whose only observer empties what it receives. *)
Definition leaky : State := subscribe clearReceived (init emptyStorage).

Definition pendingFilter : JsVal := JStr (str "pending").
Definition completedFilter : JsVal := JStr (str "completed").

(** The same clock reading and the same random number twice. *)
Definition twins : State :=
  finalState (addTask 1700000000000 (str "0.k2x9") (str "2023-11-14T22:13:20.000Z")
                      (taskText "Walk dog") store1).

(** An observer that throws. *)
Definition throwing (e : Exn) : Callback := fun _ h => (Abrupt e, h).


(** [store2] with a second observer that throws and a third behind it. *)
Definition brittleStore : State :=
  subscribe render (subscribe (throwing (Error "render failed")) store2).

(** Closed side conditions on the sample stores are settled by running
    the model. *)
Ltac wf_by_computation :=
  split; [vm_compute; lia | vm_compute; repeat constructor].

Ltac passive_by_computation :=
  vm_compute; repeat constructor.

Ltac in_by_computation :=
  vm_compute; apply list_elem_of_In; simpl; auto 10.

Ltac notin_by_computation :=
  let H := fresh in
  vm_compute; intros H; apply list_elem_of_In in H; simpl in H;
  intuition discriminate.

(** ** Strings *)

Lemma trimStart_nil (s : JsString) :
  trimStart s = [] <-> Forall (fun c => isWhiteSpace c = true) s.
Proof.
  induction s as [|c s IH]; simpl.
  - split; [constructor | reflexivity].
  - destruct (isWhiteSpace c) eqn:E.
    + rewrite IH. split; [by constructor | by inversion 1].
    + split; [discriminate | inversion 1; congruence].
Qed.

Lemma trimStart_suffix (s : JsString) : exists p, s = p ++ trimStart s.
Proof.
  induction s as [|c s [p IH]]; simpl.
  - by exists [].
  - destruct (isWhiteSpace c).
    + exists (c :: p). simpl. by f_equal.
    + by exists [].
Qed.

Lemma trimStart_head (s : JsString) c s' :
  trimStart s = c :: s' -> isWhiteSpace c = false.
Proof.
  induction s as [|d s IH]; simpl; [discriminate|].
  destruct (isWhiteSpace d) eqn:E; [done|]. intros [= -> _]. done.
Qed.

(** A text trims to the empty string exactly when all of it is white
    space. *)
Lemma trim_nil (s : JsString) :
  trim s = [] <-> Forall (fun c => isWhiteSpace c = true) s.
Proof.
  unfold trim, trimEnd. split.
  - intros H. apply trimStart_nil.
    destruct (trimStart s) as [|c s'] eqn:E; [done|].
    apply (f_equal (@rev N)) in H. rewrite rev_involutive in H. simpl in H.
    apply trimStart_nil in H.
    apply trimStart_head in E.
    rewrite Forall_app, Forall_singleton in H. destruct H; congruence.
  - intros H. apply trimStart_nil in H. by rewrite H.
Qed.

Lemma str_inj (s1 s2 : string) : str s1 = str s2 -> s1 = s2.
Proof.
  unfold str. intros H.
  rewrite <- (string_of_list_ascii_of_string s1).
  rewrite <- (string_of_list_ascii_of_string s2).
  f_equal. revert H.
  generalize (list_ascii_of_string s1) (list_ascii_of_string s2).
  induction l as [|a l IH]; intros [|b l']; simpl; try discriminate; [done|].
  intros [= Hab Hl]. f_equal; [|by apply IH].
  rewrite <- (ascii_N_embedding a), <- (ascii_N_embedding b). by rewrite Hab.
Qed.

Lemma toStringN_inj (n m : N) : toStringN n = toStringN m -> n = m.
Proof.
  unfold toStringN. intros H. apply str_inj in H.
  apply DecimalN.Unsigned.to_uint_inj.
  assert (Hnil : forall k, N.to_uint k <> Decimal.Nil).
  { intros [|p]; [discriminate | apply DecimalPos.Unsigned.to_uint_nonnil]. }
  pose proof (NilZero.usu _ (Hnil n)) as Hn.
  pose proof (NilZero.usu _ (Hnil m)) as Hm.
  rewrite H in Hn. congruence.
Qed.

(** Two generated ids are equal only if the clock readings and the random
    suffixes are, as long as the readings have as many digits. *)
Lemma generateId_inj (n m : N) (r1 r2 : JsString) :
  length (toStringN n) = length (toStringN m) ->
  generateId n r1 = generateId m r2 ->
  n = m /\ substr 2 9 r1 = substr 2 9 r2.
Proof.
  unfold generateId. intros Hlen H.
  destruct (app_inj_1 _ _ _ _ Hlen H) as [H1 H2].
  split; [by apply toStringN_inj | done].
Qed.

(** ** Heap and trace *)

Lemma readArray_newArray (l : list ORef) (h : Heap) :
  readArray (fst (newArray l h)) (snd (newArray l h)) = l.
Proof.
  unfold readArray, newArray. simpl.
  rewrite lookup_app_r by lia. by rewrite Nat.sub_diag.
Qed.

Lemma readArray_newArray_old (a : ARef) (l : list ORef) (h : Heap) :
  a < length (arrays h) ->
  readArray a (snd (newArray l h)) = readArray a h.
Proof.
  intros Ha. unfold readArray, newArray. simpl. by rewrite lookup_app_l.
Qed.

Lemma readArray_writeArray (a : ARef) (l : list ORef) (h : Heap) :
  a < length (arrays h) -> readArray a (writeArray a l h) = l.
Proof.
  intros Ha. unfold readArray, writeArray. simpl.
  by rewrite list_lookup_insert_eq.
Qed.

Lemma readArray_writeArray_ne (a b : ARef) (l : list ORef) (h : Heap) :
  a <> b -> readArray b (writeArray a l h) = readArray b h.
Proof.
  intros Hab. unfold readArray, writeArray. simpl.
  by rewrite list_lookup_insert_ne.
Qed.

(** A non-empty read means the reference is not dangling. *)
Lemma readArray_valid (a : ARef) (h : Heap) :
  readArray a h <> [] -> a < length (arrays h).
Proof.
  unfold readArray. intros H.
  destruct (arrays h !! a) eqn:E; [by eapply lookup_lt_Some | done].
Qed.

Lemma deref_newObject_old (t : Task) (h : Heap) (o : ORef) :
  o < length (objects h) -> deref (snd (newObject t h)) o = deref h o.
Proof. intros Ho. unfold deref, newObject. simpl. by rewrite lookup_total_app_l. Qed.

Lemma deref_newObject (t : Task) (h : Heap) :
  deref (snd (newObject t h)) (fst (newObject t h)) = t.
Proof.
  unfold deref, newObject. simpl.
  rewrite lookup_total_app_r by lia. by rewrite Nat.sub_diag.
Qed.

Lemma emit_nil (st : State) : emit [] st = st.
Proof. destruct st. unfold emit. simpl. by rewrite app_nil_r. Qed.

Lemma setHeap_same (st : State) : setHeap (heap st) st = st.
Proof. by destruct st. Qed.

(** Passive observers are called one after the other with the live
    array, and nothing but the trace changes. *)
Lemma forEachObserver_passive (cbs : list Callback) (k : nat) (st : State) :
  Forall passive cbs ->
  forEachObserver cbs k st
  = Return tt (emit (map (fun i => Call i (tasks st)) (seq k (length cbs))) st).
Proof.
  intros H. revert k st. induction H as [|cb cbs Hcb _ IH]; intros k st; simpl.
  - by rewrite emit_nil.
  - rewrite Hcb, setHeap_same, IH. f_equal.
    destruct st. unfold emit. simpl. by rewrite <- app_assoc.
Qed.

Lemma saveTasks_heap (st : State) : heap (saveTasks st) = heap st.
Proof. unfold saveTasks. by destruct (quotaExceeded _). Qed.

Lemma saveTasks_tasks (st : State) : tasks (saveTasks st) = tasks st.
Proof. unfold saveTasks. by destruct (quotaExceeded _). Qed.

Lemma saveTasks_observers (st : State) : observers (saveTasks st) = observers st.
Proof. unfold saveTasks. by destruct (quotaExceeded _). Qed.

Lemma saveTasks_quota (st : State) :
  quotaExceeded (localStorage (saveTasks st)) = quotaExceeded (localStorage st).
Proof.
  unfold saveTasks. destruct (quotaExceeded (localStorage st)) eqn:E; simpl; done.
Qed.

Lemma saveTasks_trace (st : State) :
  trace (saveTasks st) = trace st ++ persisted st.
Proof. unfold saveTasks, persisted. by destruct (quotaExceeded _). Qed.

(** Saving and notifying, as every successful mutation ends: with passive
    observers the call returns, the heap and the bindings stay and the
    trace grows by the save and by one call per observer. *)
Lemma publish_passive (st : State) :
  Forall passive (observers st) ->
  exists st',
    notifyObservers (saveTasks st) = Return tt st' /\
    heap st' = heap st /\ tasks st' = tasks st /\
    observers st' = observers st /\
    trace st' = trace st ++ persisted st' ++ notified st'.
Proof.
  intros H. unfold notifyObservers.
  rewrite forEachObserver_passive by (by rewrite saveTasks_observers).
  eexists. split; [reflexivity|].
  unfold emit, notified, persisted, storeTasks, taskSeq. simpl.
  rewrite saveTasks_heap, saveTasks_tasks, saveTasks_observers, saveTasks_quota,
    saveTasks_trace, <- app_assoc.
  done.
Qed.

(** ** Array.prototype.find and findIndex *)

Lemma arrayFind_None (p : Task -> bool) (h : Heap) (l : list ORef) :
  arrayFind p h l = None <-> Forall (fun o => p (deref h o) = false) l.
Proof.
  induction l as [|o l IH]; simpl.
  - split; [constructor | done].
  - destruct (p (deref h o)) eqn:E.
    + split; [done | inversion 1; congruence].
    + rewrite IH. split; [by constructor | by inversion 1].
Qed.

(** [find] answers the first element that satisfies the callback. *)
Lemma arrayFind_Some (p : Task -> bool) (h : Heap) (l : list ORef) (o : ORef) :
  arrayFind p h l = Some o ->
  exists n, l !! n = Some o /\ p (deref h o) = true /\
            Forall (fun o' => p (deref h o') = false) (take n l).
Proof.
  induction l as [|o' l IH]; simpl; [done|].
  destruct (p (deref h o')) eqn:E.
  - intros [= ->]. exists 0. simpl. by repeat split.
  - intros H. destruct (IH H) as (n & Hn & Hp & Hall).
    exists (S n). simpl. repeat split; try done. by constructor.
Qed.

(** Only the callback's answers on the elements matter. *)
Lemma arrayFind_ext (p q : Task -> bool) (h h' : Heap) (l : list ORef) :
  Forall (fun o => p (deref h o) = q (deref h' o)) l ->
  arrayFind p h l = arrayFind q h' l.
Proof.
  induction 1 as [|o l Ho _ IH]; simpl; [done|]. by rewrite Ho, IH.
Qed.

Lemma findIndexFrom_missing (p : Task -> bool) (h : Heap) (l : list ORef) (i : Z) :
  Forall (fun o => p (deref h o) = false) l -> findIndexFrom p h l i = (-1)%Z.
Proof.
  intros H. revert i. induction H as [|o l Ho _ IH]; intros i; simpl; [done|].
  by rewrite Ho, IH.
Qed.

(** [findIndex] answers the first index whose element satisfies the
    callback. *)
Lemma findIndexFrom_found (p : Task -> bool) (h : Heap) (l : list ORef) (i : Z) :
  Exists (fun o => p (deref h o) = true) l ->
  exists n o, findIndexFrom p h l i = (i + Z.of_nat n)%Z /\
              l !! n = Some o /\ p (deref h o) = true /\
              Forall (fun o' => p (deref h o') = false) (take n l).
Proof.
  revert i. induction l as [|o l IH]; intros i H; [by inversion H|]. simpl.
  destruct (p (deref h o)) eqn:E.
  - exists 0, o. simpl. repeat split; try done. lia.
  - inversion H as [? ? Ho|? ? Hl]; subst; [congruence|].
    destruct (IH (i + 1)%Z Hl) as (n & o' & Hf & Hn & Hp & Hall).
    exists (S n), o'. simpl. repeat split; try done; [lia | by constructor].
Qed.

(** A task with a given id is stored exactly when some element of the
    live array carries that id. *)
Lemma elem_of_ids (a : JsString) (st : State) :
  a ∈ ids st <->
  Exists (fun o => bool_decide (id (deref (heap st) o) = a) = true) (taskSeq st).
Proof.
  unfold ids, storeTasks. rewrite Exists_exists. split.
  - intros H. apply list_elem_of_fmap in H as (t & -> & Ht).
    apply list_elem_of_fmap in Ht as (o & -> & Ho).
    exists o. split; [by apply list_elem_of_In|]. by apply bool_decide_eq_true.
  - intros (o & Ho & Hid). apply list_elem_of_In in Ho.
    apply bool_decide_eq_true in Hid. subst a.
    apply list_elem_of_fmap. eexists. split; [reflexivity|].
    apply list_elem_of_fmap. by exists o.
Qed.

Lemma not_elem_of_ids (a : JsString) (st : State) :
  a ∉ ids st ->
  Forall (fun o => bool_decide (id (deref (heap st) o) = a) = false) (taskSeq st).
Proof.
  intros H. apply list.Forall_forall. intros o Ho.
  apply bool_decide_eq_false. intros Hid. apply H, elem_of_ids.
  apply List.Exists_exists. exists o.
  split; [by apply list_elem_of_In | by apply bool_decide_eq_true].
Qed.

(** ** getAllTasks *)

Lemma answer_getAllTasks (st : State) : answer (getAllTasks st) = taskSeq st.
Proof. unfold answer, getAllTasks. simpl. apply readArray_newArray. Qed.

(** The array [getAllTasks] answers is not the live one, and writing it
    leaves the sequence of the store alone. *)
Lemma getAllTasks_fresh_array (st : State) (l : list ORef) :
  wf st ->
  fst (getAllTasks st) <> tasks st /\
  taskSeq (snd (getAllTasks st)) = taskSeq st /\
  taskSeq (setHeap (writeArray (fst (getAllTasks st)) l
                               (heap (snd (getAllTasks st))))
                   (snd (getAllTasks st))) = taskSeq st.
Proof.
  intros [Ha _]. unfold getAllTasks, taskSeq. simpl.
  split; [lia|]. split.
  - unfold readArray. simpl. by rewrite lookup_app_l.
  - rewrite readArray_writeArray_ne by (simpl; lia).
    unfold readArray. simpl. by rewrite lookup_app_l.
Qed.

(** ** addTask *)

(** C2: when the text of the input is empty after trimming, [addTask]
    throws the error of its guard ("Task text cannot be empty", the
    validation error of the design) and the state it leaves is the state it
    found: the live array, the tasks, the storage slot and the trace
    (no [setItem], no observer call) are all untouched. *)
Theorem addTask_blank_text_throws
    (now : N) (random36 iso : JsString) (taskData : TaskData)
    (s : JsString) (st : State) :
  td_text taskData = JStr s ->
  trim s = [] ->
  addTask now random36 iso taskData st
  = Throw (Error "Task text cannot be empty") st.
Proof.
  intros Htext Htrim. unfold addTask. rewrite Htext. simpl. by rewrite Htrim.
Qed.

Lemma addTask_blank_text_throws_witness :
  addTask 1700000000002 (str "0.zz1") (str "2023-11-14T22:13:20.002Z")
          (taskText "  ") store2
  = Throw (Error "Task text cannot be empty") store2.
Proof.
  apply (addTask_blank_text_throws _ _ _ _ (str "  ")); reflexivity.
Defined.

Example addTask_empty_string_throws (st : State) :
  addTask 0 [] [] (taskText "") st
  = Throw (Error "Task text cannot be empty") st.
Proof. reflexivity. Qed.

(** Every all-white-space text is rejected that way. *)
Lemma addTask_white_space_throws
    (now : N) (random36 iso : JsString) (due prio : JsVal)
    (s : JsString) (st : State) :
  Forall (fun c => isWhiteSpace c = true) s ->
  addTask now random36 iso (mkTaskData (JStr s) due prio) st
  = Throw (Error "Task text cannot be empty") st.
Proof.
  intros H. unfold addTask. simpl. apply trim_nil in H. by rewrite H.
Qed.

(** C10: an input without a [text] property makes [addTask] throw a
    [TypeError] (there is no [trim] to call on [undefined]), not the error
    of the empty-text guard, and the state is left as it was found. *)
Theorem addTask_without_text_throws_TypeError
    (now : N) (random36 iso : JsString) (due prio : JsVal) (st : State) :
  addTask now random36 iso (mkTaskData JUndefined due prio) st
  = Throw TypeError st
  /\ TypeError <> Error "Task text cannot be empty".
Proof. split; [reflexivity | discriminate]. Qed.

(** The state [addTask] builds before it saves and notifies. *)
Lemma unshift_state (t : Task) (st : State) :
  wf st ->
  let o := length (objects (heap st)) in
  let st1 :=
    setHeap (writeArray (tasks st)
               (o :: readArray (tasks st) (snd (newObject t (heap st))))
               (snd (newObject t (heap st)))) st in
  taskSeq st1 = o :: taskSeq st /\
  (o ∉ taskSeq st) /\
  deref (heap st1) o = t /\
  Forall (fun o' => deref (heap st1) o' = deref (heap st) o') (taskSeq st).
Proof.
  intros [Ha Ho]. simpl. repeat split.
  - unfold taskSeq. simpl. by rewrite readArray_writeArray.
  - intros Hin. rewrite list.Forall_forall in Ho. apply Ho in Hin. lia.
  - unfold deref. simpl. rewrite lookup_total_app_r by lia.
    by rewrite Nat.sub_diag.
  - eapply list.Forall_impl; [exact Ho|]. intros o' Hlt. simpl in Hlt.
    unfold deref. simpl. by rewrite lookup_total_app_l.
Qed.




(** ** Array.prototype.splice *)

Lemma splice_remove (i : nat) (l : list ORef) :
  i < length l ->
  splice (Z.of_nat i) 1 [] l = (take 1 (drop i l), delete i l).
Proof.
  intros Hi. unfold splice.
  destruct (Z.ltb_spec (Z.of_nat i) 0); [lia|].
  rewrite (Z.min_l (Z.of_nat i)) by lia.
  rewrite (Z.max_l 1 0) by lia.
  rewrite (Z.min_l 1) by lia.
  rewrite Nat2Z.id. change (Z.to_nat 1) with 1.
  rewrite delete_take_drop, Nat.add_1_r. done.
Qed.

Lemma splice_insert (j : nat) (items l : list ORef) :
  j <= length l ->
  splice (Z.of_nat j) 0 items l = ([], take j l ++ items ++ drop j l).
Proof.
  intros Hj. unfold splice.
  destruct (Z.ltb_spec (Z.of_nat j) 0); [lia|].
  rewrite (Z.min_l (Z.of_nat j)) by lia.
  rewrite (Z.max_l 0 0) by lia.
  rewrite (Z.min_l 0) by lia.
  rewrite Nat2Z.id. change (Z.to_nat 0) with 0.
  rewrite Nat.add_0_r. done.
Qed.

(** ** reorderTasks *)

Lemma reorderTasks_missing (a b : JsString) (st : State) :
  a ∉ ids st \/ b ∉ ids st -> reorderTasks a b st = Return false st.
Proof.
  intros H. unfold reorderTasks, arrayFindIndex.
  destruct H as [H|H]; apply not_elem_of_ids in H;
    rewrite (findIndexFrom_missing _ _ _ _ H); simpl;
    by rewrite ?orb_true_r.
Qed.

(** Both ids stored: the first task with the dragged id leaves its index
    [i] and enters at [j], the index of the first task with the target
    id in the array as it was. *)
Lemma reorderTasks_present (a b : JsString) (st : State) :
  a ∈ ids st -> b ∈ ids st ->
  Forall passive (observers st) ->
  exists (i j : nat) (od ot : ORef) (st' : State),
    arrayFindIndex (fun t => bool_decide (id t = a)) (heap st) (taskSeq st)
    = Z.of_nat i /\
    arrayFindIndex (fun t => bool_decide (id t = b)) (heap st) (taskSeq st)
    = Z.of_nat j /\
    taskSeq st !! i = Some od /\ id (deref (heap st) od) = a /\
    Forall (fun o => id (deref (heap st) o) <> a) (take i (taskSeq st)) /\
    taskSeq st !! j = Some ot /\ id (deref (heap st) ot) = b /\
    Forall (fun o => id (deref (heap st) o) <> b) (take j (taskSeq st)) /\
    reorderTasks a b st = Return true st' /\
    taskSeq st'
    = take j (delete i (taskSeq st)) ++ od :: drop j (delete i (taskSeq st)) /\
    objects (heap st') = objects (heap st) /\
    trace st' = trace st ++ persisted st' ++ notified st'.
Proof.
  intros Ha Hb Hobs.
  apply elem_of_ids in Ha. apply elem_of_ids in Hb.
  destruct (findIndexFrom_found (fun t => bool_decide (id t = a)) _ _ 0%Z Ha)
    as (i & od & Hi & Hod & Hpa & Hfa).
  destruct (findIndexFrom_found (fun t => bool_decide (id t = b)) _ _ 0%Z Hb)
    as (j & ot & Hj & Hot & Hpb & Hfb).
  rewrite Z.add_0_l in Hi, Hj.
  apply bool_decide_eq_true in Hpa, Hpb.
  assert (Hilt : i < length (taskSeq st)) by (by eapply lookup_lt_Some).
  assert (Hjlt : j < length (taskSeq st)) by (by eapply lookup_lt_Some).
  assert (Hvalid : tasks st < length (arrays (heap st))).
  { apply readArray_valid. fold (taskSeq st). intros E. rewrite E in Hilt.
    simpl in Hilt. lia. }
  assert (Hlen : length (delete i (taskSeq st)) = length (taskSeq st) - 1).
  { apply length_delete. by exists od. }
  set (l1 := delete i (taskSeq st)).
  set (st1 := setHeap (writeArray (tasks st) l1 (heap st)) st).
  assert (Hseq1 : taskSeq st1 = l1).
  { unfold taskSeq, st1. simpl. by apply readArray_writeArray. }
  set (l2 := take j l1 ++ [od] ++ drop j l1).
  set (st2 := setHeap (writeArray (tasks st1) l2 (heap st1)) st1).
  assert (Hseq2 : taskSeq st2 = l2).
  { unfold taskSeq, st2. simpl. apply readArray_writeArray.
    simpl. by rewrite length_insert. }
  destruct (publish_passive st2 Hobs)
    as (st' & Hrun & Hheap & Htasks & _ & Htrace).
  exists i, j, od, ot, st'.
  assert (Hrun' : reorderTasks a b st = Return true st').
  { unfold reorderTasks, arrayFindIndex. rewrite Hi, Hj.
    replace ((Z.of_nat i =? -1)%Z || (Z.of_nat j =? -1)%Z) with false
      by (symmetry; apply orb_false_intro; apply Z.eqb_neq; lia).
    rewrite (splice_remove i) by done.
    rewrite (drop_S _ od i) by done. simpl take. fold l1. fold st1.
    rewrite Hseq1.
    rewrite (splice_insert j) by (unfold l1; lia).
    fold l2. fold st2. by rewrite Hrun. }
  repeat split; try done.
  - eapply list.Forall_impl; [exact Hfa|]. intros o Ho.
    by apply bool_decide_eq_false in Ho.
  - eapply list.Forall_impl; [exact Hfb|]. intros o Ho.
    by apply bool_decide_eq_false in Ho.
  - unfold taskSeq in *. by rewrite Hheap, Htasks, Hseq2.
  - by rewrite Hheap.
Qed.






(** ** toggleTask *)

Lemma deref_writeObject (o : ORef) (t : Task) (h : Heap) :
  o < length (objects h) -> deref (writeObject o t h) o = t.
Proof. intros Ho. unfold deref, writeObject. simpl. by apply list_lookup_total_insert_eq. Qed.

Lemma deref_writeObject_ne (o o' : ORef) (t : Task) (h : Heap) :
  o <> o' -> deref (writeObject o t h) o' = deref h o'.
Proof. intros Ho. unfold deref, writeObject. simpl. by apply list_lookup_total_insert_ne. Qed.

(** C9: for an id no stored task has, [toggleTask] returns without an
    error and leaves the state as it found it: the tasks [getAllTasks]
    shows, the statistics and the trace (no save, no observer call) are
    the same. *)
Theorem toggleTask_missing_is_noop (iso taskId : JsString) (st : State) :
  taskId ∉ ids st ->
  toggleTask iso taskId st = Return tt st /\
  let st' := finalState (toggleTask iso taskId st) in
  answer (getAllTasks st') = answer (getAllTasks st) /\
  storeTasks st' = storeTasks st /\
  getStats st' = getStats st /\
  trace st' = trace st.
Proof.
  intros H. apply not_elem_of_ids in H.
  assert (E : toggleTask iso taskId st = Return tt st).
  { unfold toggleTask.
    by rewrite (proj2 (arrayFind_None _ _ _) H). }
  by rewrite E.
Qed.

Lemma toggleTask_missing_is_noop_witness :
  toggleTask (str "2023-11-14T22:13:21.000Z") (str "nonexistent") store2
  = Return tt store2.
Proof.
  apply (toggleTask_missing_is_noop _ (str "nonexistent") store2).
  notin_by_computation.
Defined.

(** One call on a stored id: the first task with the id is replaced by
    its toggled version, in place. *)
Lemma toggleTask_found (iso a : JsString) (o : ORef) (st : State) :
  Forall passive (observers st) ->
  arrayFind (fun t => bool_decide (id t = a)) (heap st) (taskSeq st) = Some o ->
  exists st',
    toggleTask iso a st = Return tt st' /\
    heap st' = writeObject o (toggled iso (deref (heap st) o)) (heap st) /\
    tasks st' = tasks st /\
    observers st' = observers st /\
    trace st' = trace st ++ persisted st' ++ notified st'.
Proof.
  intros Hobs Hfind.
  set (st1 := setHeap (writeObject o (toggled iso (deref (heap st) o)) (heap st)) st).
  destruct (publish_passive st1 Hobs) as (st' & Hrun & Hheap & Htasks & Hobs' & Htrace).
  exists st'. repeat split; try done.
  unfold toggleTask. rewrite Hfind. exact Hrun.
Qed.

(** C6, as the code has it: for every stored task (observers leaving the
    heap alone), two calls of [toggleTask] with its id both return and
    leave the task with the [completed] it had, its other fields and the
    order of the tasks being as before.  The value of [completedAt] does
    not come back: for the task the calls act on, the first with the id,
    it ends as the time of the second call when the task is completed and
    as [null] when it is not.  So a [completedAt] that was a timestamp
    exactly when the task was completed is again a timestamp, or again
    absent. *)
Theorem toggleTask_twice_restores
    (iso1 iso2 : JsString) (r : ORef) (st : State) :
  wf st ->
  Forall passive (observers st) ->
  r ∈ taskSeq st ->
  let t := deref (heap st) r in
  exists (st1 st2 : State),
    toggleTask iso1 (id t) st = Return tt st1 /\
    toggleTask iso2 (id t) st1 = Return tt st2 /\
    let t2 := deref (heap st2) r in
    completed t2 = completed t /\
    (isTimestamp (completedAt t) = completed t ->
     isTimestamp (completedAt t2) = isTimestamp (completedAt t)) /\
    id t2 = id t /\ text t2 = text t /\ createdAt t2 = createdAt t /\
    dueDate t2 = dueDate t /\ priority t2 = priority t /\
    taskSeq st2 = taskSeq st /\
    (arrayFind (fun t' => bool_decide (id t' = id t)) (heap st) (taskSeq st)
     = Some r ->
     isTimestamp (completedAt t2) = completed t2 /\
     completedAt t2 = if completed t then JStr iso2 else JNull).
Proof.
  intros [Ha Ho] Hobs Hr t.
  set (p := fun t' : Task => bool_decide (id t' = id t)).
  destruct (arrayFind p (heap st) (taskSeq st)) as [o|] eqn:Hfind.
  2:{ apply arrayFind_None in Hfind. rewrite list.Forall_forall in Hfind.
      apply Hfind in Hr. unfold p in Hr. by apply bool_decide_eq_false in Hr. }
  destruct (arrayFind_Some _ _ _ _ Hfind) as (n & Hn & Hp & _).
  apply bool_decide_eq_true in Hp.
  assert (Hoin : o ∈ taskSeq st) by (apply list_elem_of_lookup; eauto).
  assert (Holt : o < length (objects (heap st))).
  { rewrite list.Forall_forall in Ho. by apply Ho. }
  destruct (toggleTask_found iso1 (id t) o st Hobs Hfind)
    as (st1 & Hrun1 & Hheap1 & Htasks1 & Hobs1 & _).
  assert (Hseq1 : taskSeq st1 = taskSeq st).
  { unfold taskSeq. by rewrite Hheap1, Htasks1. }
  assert (Hfind1 : arrayFind p (heap st1) (taskSeq st1) = Some o).
  { rewrite Hseq1, <- Hfind. apply arrayFind_ext, list.Forall_forall.
    intros o' _. unfold p. rewrite Hheap1.
    destruct (decide (o = o')) as [<-|Hne].
    - by rewrite deref_writeObject.
    - by rewrite deref_writeObject_ne. }
  rewrite <- Hobs1 in Hobs.
  destruct (toggleTask_found iso2 (id t) o st1 Hobs Hfind1)
    as (st2 & Hrun2 & Hheap2 & Htasks2 & _ & _).
  exists st1, st2. split; [done|]. split; [done|].
  assert (Hseq2 : taskSeq st2 = taskSeq st).
  { rewrite <- Hseq1. unfold taskSeq. by rewrite Hheap2, Htasks2. }
  assert (Holt1 : o < length (objects (heap st1))).
  { rewrite Hheap1. simpl. by rewrite length_insert. }
  destruct (decide (o = r)) as [->|Hne].
  - assert (E : deref (heap st2) r
                = toggled iso2 (toggled iso1 (deref (heap st) r))).
    { rewrite Hheap2, deref_writeObject by done.
      by rewrite Hheap1, deref_writeObject. }
    simpl. rewrite E. fold t. simpl. rewrite negb_involutive.
    repeat split; try done.
    + intros <-. by destruct (isTimestamp (completedAt t)).
    + by destruct (completed t).
  - assert (E : deref (heap st2) r = t).
    { rewrite Hheap2, deref_writeObject_ne by done.
      by rewrite Hheap1, deref_writeObject_ne. }
    simpl. rewrite E. repeat split; try done; congruence.
Qed.

Lemma toggleTask_twice_restores_witness :
  exists st1 st2,
    toggleTask (str "2023-11-14T22:14:00.000Z") milkId store2 = Return tt st1 /\
    toggleTask (str "2023-11-14T22:15:00.000Z") milkId st1 = Return tt st2 /\
    completed (deref (heap st2) 0) = false.
Proof.
  destruct (toggleTask_twice_restores (str "2023-11-14T22:14:00.000Z")
              (str "2023-11-14T22:15:00.000Z") 0 store2)
    as (st1 & st2 & Hrun1 & Hrun2 & Hc & _).
  - wf_by_computation.
  - passive_by_computation.
  - in_by_computation.
  - exists st1, st2. split; [exact Hrun1|]. split; [exact Hrun2|]. exact Hc.
Defined.

(** C6 as stated fails on [completedAt]: "Buy milk" was completed at
    22:14:00; toggled at 22:15:00 and again at 22:16:00 it is completed as
    before, with 22:16:00 as its [completedAt]. *)
Lemma toggleTask_twice_changes_completedAt :
  wf doneStore /\ Forall passive (observers doneStore) /\
  taskSeq doneStore !! 1 = Some 0 /\
  id (deref (heap doneStore) 0) = milkId /\
  completed (deref (heap doneStore) 0) = true /\
  completedAt (deref (heap doneStore) 0)
  = JStr (str "2023-11-14T22:14:00.000Z") /\
  exists st1 st2,
    toggleTask (str "2023-11-14T22:15:00.000Z") milkId doneStore
    = Return tt st1 /\
    toggleTask (str "2023-11-14T22:16:00.000Z") milkId st1 = Return tt st2 /\
    completed (deref (heap st2) 0) = true /\
    completedAt (deref (heap st2) 0) = JStr (str "2023-11-14T22:16:00.000Z") /\
    completedAt (deref (heap st2) 0) <> completedAt (deref (heap doneStore) 0).
Proof.
  split; [wf_by_computation|]. split; [passive_by_computation|].
  split; [vm_compute; reflexivity|]. split; [vm_compute; reflexivity|].
  split; [vm_compute; reflexivity|]. split; [vm_compute; reflexivity|].
  exists (finalState (toggleTask (str "2023-11-14T22:15:00.000Z") milkId
                        doneStore)),
         (finalState (toggleTask (str "2023-11-14T22:16:00.000Z") milkId
            (finalState (toggleTask (str "2023-11-14T22:15:00.000Z") milkId
                           doneStore)))).
  split; [vm_compute; reflexivity|]. split; [vm_compute; reflexivity|].
  split; [vm_compute; reflexivity|]. split; [vm_compute; reflexivity|].
  vm_compute. discriminate.
Qed.

(** A task that was never completed has no [completedAt]; after two
    calls it has [null]. *)
Example toggleTask_twice_leaves_null :
  completedAt (deref (heap store2) 0) = JUndefined /\
  completedAt
    (deref (heap (finalState
       (toggleTask (str "2023-11-14T22:16:00.000Z") milkId
          (finalState (toggleTask (str "2023-11-14T22:15:00.000Z") milkId
                         store2))))) 0)
  = JNull.
Proof. split; vm_compute; reflexivity. Qed.

(** ** Array.prototype.filter *)

Lemma arrayFilter_elem_of (p : Task -> bool) (h : Heap) (l : list ORef) (o : ORef) :
  o ∈ arrayFilter p h l <-> o ∈ l /\ p (deref h o) = true.
Proof.
  unfold arrayFilter. rewrite !list_elem_of_In. apply filter_In.
Qed.


Lemma arrayFilter_all (p : Task -> bool) (h : Heap) (l : list ORef) :
  Forall (fun o => p (deref h o) = true) l -> arrayFilter p h l = l.
Proof.
  induction 1 as [|o l Ho _ IH]; simpl; [done|]. rewrite Ho. by f_equal.
Qed.



(** ** deleteTask *)

(** The state of [deleteTask] once [tasks] is bound to the filtered
    array. *)
Lemma deleteTask_filtered (a : JsString) (st : State) :
  let kept :=
    arrayFilter (fun t => negb (bool_decide (id t = a))) (heap st) (taskSeq st) in
  let st1 :=
    setTasks (fst (newArray kept (heap st)))
             (setHeap (snd (newArray kept (heap st))) st) in
  taskSeq st1 = kept /\
  deleteTask a st
  = if bool_decide (length kept <> length (taskSeq st)) then
      andThen (notifyObservers (saveTasks st1)) (fun _ st' => Return true st')
    else Return false st1.
Proof.
  intros kept st1.
  assert (Hseq : taskSeq st1 = kept).
  { unfold taskSeq. simpl. apply readArray_newArray. }
  split; [done|]. rewrite <- Hseq. reflexivity.
Qed.




(** ** getFilteredTasks *)

Lemma answer_getFilteredTasks (filter : JsVal) (st : State) :
  answer (getFilteredTasks filter st)
  = if bool_decide (filter = completedFilter) then
      arrayFilter (fun task => completed task) (heap st) (taskSeq st)
    else if bool_decide (filter = pendingFilter) then
      arrayFilter (fun task => negb (completed task)) (heap st) (taskSeq st)
    else taskSeq st.
Proof. unfold answer, getFilteredTasks. simpl. apply readArray_newArray. Qed.



(** ** What observers receive *)

(** The first observer is called with the reference [tasks] holds. *)
Lemma notifyObservers_passes_tasks (cb : Callback) (rest : list Callback)
    (st : State) :
  observers st = cb :: rest ->
  notifyObservers st
  = let st' := emit [Call 0 (tasks st)]
                    (setHeap (snd (cb (tasks st) (heap st))) st) in
    match fst (cb (tasks st) (heap st)) with
    | Normal => forEachObserver rest 1 st'
    | Abrupt e => Throw e st'
    end.
Proof.
  intros H. unfold notifyObservers. rewrite H. simpl.
  by destruct (cb (tasks st) (heap st)).
Qed.

(** C3 does not hold for observers: [notifyObservers] hands them the live
    array.  With an observer that empties what it receives, [addTask]
    returns the new task and saves it, the observer is called with the
    very reference [tasks] holds, and afterwards the store is empty. *)
Theorem observer_receives_live_array :
  exists (o : ORef) (st' : State),
    addTask 1700000000000 (str "0.k2x9") (str "2023-11-14T22:13:20.000Z")
            (taskText "Buy milk") leaky = Return o st' /\
    trace st' = [SetItem [deref (heap st') o]; Call 0 (tasks st')] /\
    item (localStorage st') = Some (Json [deref (heap st') o]) /\
    answer (getAllTasks st') = [] /\
    total (getStats st') = 0%Z.
Proof.
  exists 0, (finalState (addTask 1700000000000 (str "0.k2x9")
                           (str "2023-11-14T22:13:20.000Z")
                           (taskText "Buy milk") leaky)).
  repeat split; vm_compute; reflexivity.
Qed.

(** The array of [getAllTasks] is a copy, but its elements are the task
    objects of the store: a write through one of them is a write to the
    store. *)
Lemma getAllTasks_shares_task_objects :
  let snapshot := getAllTasks store1 in
  answer snapshot = taskSeq store1 /\
  completedCount (getStats (snd snapshot)) = 0%Z /\
  completedCount
    (getStats (setHeap (writeObject 0 (toggled [] (deref (heap (snd snapshot)) 0))
                                    (heap (snd snapshot)))
                       (snd snapshot))) = 1%Z.
Proof. repeat split; vm_compute; reflexivity. Qed.

(** ** The invariant

    [wf] holds when the module is defined and every operation keeps it, as
    long as the observers leave the heap alone. *)

Lemma wf_init (ls : Storage) : wf (init ls).
Proof. split; [simpl; lia | constructor]. Qed.

Lemma wf_subscribe (cb : Callback) (st : State) : wf st -> wf (subscribe cb st).
Proof. done. Qed.

Lemma wf_publish (st : State) :
  wf st -> Forall passive (observers st) ->
  wf (finalState (notifyObservers (saveTasks st))).
Proof.
  intros Hwf Hobs.
  destruct (publish_passive st Hobs) as (st' & Hrun & Hheap & Htasks & _).
  rewrite Hrun. simpl. unfold wf, taskSeq. by rewrite Hheap, Htasks.
Qed.

Lemma finalState_andThen {A B : Type} (m : Outcome A) (f : A -> B) :
  finalState (andThen m (fun v st' => Return (f v) st')) = finalState m.
Proof. by destruct m. Qed.

Lemma wf_addTask (now : N) (random36 iso : JsString) (taskData : TaskData)
    (st : State) :
  wf st -> Forall passive (observers st) ->
  wf (finalState (addTask now random36 iso taskData st)).
Proof.
  intros Hwf Hobs. unfold addTask.
  destruct (td_text taskData); try done. simpl.
  destruct (trim s) eqn:E; [done|].
  rewrite (finalState_andThen _ (fun _ => length (objects (heap st)))).
  apply wf_publish; [|done].
  destruct Hwf as [Ha Ho]. split.
  - simpl. by rewrite length_insert.
  - unfold taskSeq. simpl. rewrite readArray_writeArray by done.
    simpl. rewrite length_app. simpl. constructor; [lia|].
    eapply list.Forall_impl; [exact Ho|]. intros o Hlt. simpl in Hlt. lia.
Qed.

Lemma wf_toggleTask (iso taskId : JsString) (st : State) :
  wf st -> Forall passive (observers st) ->
  wf (finalState (toggleTask iso taskId st)).
Proof.
  intros Hwf Hobs. unfold toggleTask.
  destruct (arrayFind _ _ _) as [o|]; [|done].
  apply wf_publish; [|done].
  destruct Hwf as [Ha Ho]. split; [done|].
  unfold taskSeq. simpl. by rewrite length_insert.
Qed.

Lemma wf_deleteTask (taskId : JsString) (st : State) :
  wf st -> Forall passive (observers st) ->
  wf (finalState (deleteTask taskId st)).
Proof.
  intros [Ha Ho] Hobs.
  destruct (deleteTask_filtered taskId st) as [Hseq Hrun].
  simpl in Hseq, Hrun. rewrite Hrun.
  set (st1 := setTasks _ _) in *.
  assert (Hwf1 : wf st1).
  { split; [simpl; rewrite length_app; simpl; lia|].
    rewrite Hseq. simpl. apply list.Forall_forall. intros o Hin.
    apply arrayFilter_elem_of in Hin as [Hin _].
    rewrite list.Forall_forall in Ho. by apply Ho. }
  case_bool_decide; [|done].
  rewrite (finalState_andThen _ (fun _ => true)). by apply wf_publish.
Qed.

Lemma wf_reorderTasks (draggedTaskId targetTaskId : JsString) (st : State) :
  wf st -> Forall passive (observers st) ->
  wf (finalState (reorderTasks draggedTaskId targetTaskId st)).
Proof.
  intros Hwf Hobs.
  destruct (decide (draggedTaskId ∈ ids st)) as [Ha|Ha];
    [|by rewrite reorderTasks_missing by (by left)].
  destruct (decide (targetTaskId ∈ ids st)) as [Hb|Hb];
    [|by rewrite reorderTasks_missing by (by right)].
  destruct (reorderTasks_present _ _ st Ha Hb Hobs)
    as (i & j & od & ot & st' & _ & _ & Hod & _ & _ & _ & _ & _
        & Hrun & Hseq & Hobj & _).
  rewrite Hrun. simpl. destruct Hwf as [_ Ho]. split.
  - apply readArray_valid. fold (taskSeq st'). rewrite Hseq.
    by destruct (take j _).
  - rewrite Hseq, Hobj. apply Forall_app. split.
    + by apply Forall_take, Forall_delete.
    + constructor; [|by apply Forall_drop, Forall_delete].
      rewrite list.Forall_forall in Ho. apply Ho.
      apply list_elem_of_lookup. eauto.
Qed.

Lemma wf_loadTasks (st : State) :
  wf st -> Forall passive (observers st) -> wf (loadTasks st).
Proof.
  intros [Ha Ho] Hobs. unfold loadTasks.
  destruct (item (localStorage st)) as [[ts|]|]; [| |done].
  - simpl. unfold notifyObservers. rewrite forEachObserver_passive by done.
    simpl. split; [simpl; rewrite length_app; simpl; lia|].
    unfold taskSeq. simpl.
    change (readArray _ _)
      with (readArray (fst (newArray (seq (length (objects (heap st))) (length ts))
                              (mkHeap (arrays (heap st)) (objects (heap st) ++ ts))))
                      (snd (newArray (seq (length (objects (heap st))) (length ts))
                              (mkHeap (arrays (heap st)) (objects (heap st) ++ ts))))).
    rewrite readArray_newArray. apply list.Forall_forall. intros o Hin.
    apply elem_of_seq in Hin. rewrite length_app. lia.
  - split; [simpl; rewrite length_app; simpl; lia|].
    unfold taskSeq, loadFailed. simpl.
    change (readArray _ _)
      with (readArray (fst (newArray [] (heap st))) (snd (newArray [] (heap st)))).
    rewrite readArray_newArray. constructor.
Qed.

(** What was saved is what a later [loadTasks] brings back: the same
    tasks in the same order. *)
Lemma loadTasks_after_saveTasks (st : State) :
  quotaExceeded (localStorage st) = false ->
  Forall passive (observers st) ->
  storeTasks (loadTasks (saveTasks st)) = storeTasks st.
Proof.
  intros Hq Hobs. unfold saveTasks. rewrite Hq. unfold loadTasks. simpl.
  unfold notifyObservers. rewrite forEachObserver_passive by done.
  unfold storeTasks at 1, taskSeq at 1. simpl.
  set (ts := storeTasks st).
  change (readArray _ _)
    with (readArray (fst (newArray (seq (length (objects (heap st))) (length ts))
                            (mkHeap (arrays (heap st)) (objects (heap st) ++ ts))))
                    (snd (newArray (seq (length (objects (heap st))) (length ts))
                            (mkHeap (arrays (heap st)) (objects (heap st) ++ ts))))).
  rewrite readArray_newArray. unfold deref. simpl.
  generalize (objects (heap st)). clear. intros objs.
  apply list_eq. intros k. rewrite list_lookup_fmap.
  destruct (decide (k < length ts)) as [Hk|Hk].
  - rewrite lookup_seq_lt by done. simpl.
    rewrite lookup_total_app_r by lia.
    replace (length objs + k - length objs) with k by lia.
    destruct (lookup_lt_is_Some_2 ts k Hk) as [t Ht].
    rewrite Ht. f_equal. by apply list_lookup_total_correct.
  - rewrite lookup_seq_ge by lia. simpl. symmetry. apply lookup_ge_None. lia.
Qed.

(** ** The scenario of the specification *)

Example scenario_most_recent_first :
  map text (storeTasks store2) = [str "Walk dog"; str "Buy milk"].
Proof. vm_compute. reflexivity. Qed.

Example scenario_stats_after_toggle :
  getStats (finalState (toggleTask (str "2023-11-14T22:14:00.000Z")
                                   milkId store2))
  = mkStats 2 1 1.
Proof. vm_compute. reflexivity. Qed.

(** * Further properties of the module *)

(** ** Notification with any observers *)

Lemma emit_emit (es1 es2 : list Event) (st : State) :
  emit es2 (emit es1 st) = emit (es1 ++ es2) st.
Proof. destruct st. unfold emit. simpl. by rewrite <- app_assoc. Qed.

(** Passive observers in front are called in turn; the iteration goes on
    with the rest. *)
Lemma forEachObserver_app_passive (pre rest : list Callback) (k : nat)
    (st : State) :
  Forall passive pre ->
  forEachObserver (pre ++ rest) k st
  = forEachObserver rest (k + length pre)
      (emit (map (fun i => Call i (tasks st)) (seq k (length pre))) st).
Proof.
  intros H. revert k st. induction H as [|cb pre Hcb _ IH]; intros k st; simpl.
  - by rewrite emit_nil, Nat.add_0_r.
  - rewrite Hcb, setHeap_same, IH, emit_emit. simpl.
    by rewrite Nat.add_succ_r.
Qed.

Lemma tasks_emit (es : list Event) (st : State) : tasks (emit es st) = tasks st.
Proof. done. Qed.

Lemma forEachObserver_throwing (e : Exn) (rest : list Callback) (k : nat)
    (st : State) :
  forEachObserver (throwing e :: rest) k st
  = Throw e (emit [Call k (tasks st)] st).
Proof. simpl. by rewrite setHeap_same. Qed.

Lemma publish_passive_eq (st : State) :
  Forall passive (observers st) ->
  notifyObservers (saveTasks st)
  = Return tt (emit (notified st) (saveTasks st)).
Proof.
  intros H. unfold notifyObservers.
  rewrite forEachObserver_passive by (by rewrite saveTasks_observers).
  by rewrite saveTasks_tasks, saveTasks_observers.
Qed.

(** ** getStats *)

(** X1: the three counters of [getStats] are the sizes of what
    [getAllTasks] and the "completed" and "pending" filters answer; total
    is the sum of the other two and none is negative. *)
Theorem getStats_counts_the_filtered_answers (st : State) :
  let s := getStats st in
  total s = Z.of_nat (length (answer (getAllTasks st))) /\
  completedCount s
  = Z.of_nat (length (answer (getFilteredTasks completedFilter st))) /\
  pending s
  = Z.of_nat (length (answer (getFilteredTasks pendingFilter st))) /\
  total s = (completedCount s + pending s)%Z /\
  (0 <= completedCount s <= total s)%Z /\
  (0 <= pending s <= total s)%Z.
Proof.
  simpl. rewrite answer_getAllTasks, !answer_getFilteredTasks.
  rewrite (bool_decide_eq_false_2 (pendingFilter = completedFilter))
    by discriminate.
  rewrite !bool_decide_eq_true_2 by done.
  pose proof (filter_length (fun o => completed (deref (heap st) o))
                            (taskSeq st)) as H.
  unfold getStats, arrayFilter. simpl in *. repeat split; lia.
Qed.

(** ** addTask and its environment *)

Lemma addTask_accepted (now : N) (random36 iso : JsString)
    (taskData : TaskData) (s : JsString) (st : State) :
  td_text taskData = JStr s -> trim s <> [] ->
  addTask now random36 iso taskData st
  = andThen (notifyObservers
               (saveTasks (unshifted (newTaskOf now random36 iso taskData s) st)))
            (fun _ st' => Return (length (objects (heap st))) st').
Proof.
  intros Htext Htrim. unfold addTask. rewrite Htext. simpl.
  destruct (trim s) eqn:E; [done|]. unfold newTaskOf. by rewrite E.
Qed.



(** X3: an observer that throws makes [addTask] throw, after the fact: the
    task is in the store and saved, the observers registered before the
    failing one have been called, those after it have not. *)
Theorem addTask_throws_after_storing_when_observer_throws
    (now : N) (random36 iso : JsString) (taskData : TaskData)
    (s : JsString) (e : Exn) (pre post : list Callback) (st : State) :
  wf st ->
  observers st = pre ++ throwing e :: post ->
  Forall passive pre ->
  td_text taskData = JStr s ->
  trim s <> [] ->
  exists (st' : State),
    addTask now random36 iso taskData st = Throw e st' /\
    taskSeq st' = length (objects (heap st)) :: taskSeq st /\
    deref (heap st') (length (objects (heap st)))
    = newTaskOf now random36 iso taskData s /\
    (quotaExceeded (localStorage st) = false ->
     item (localStorage st') = Some (Json (storeTasks st'))) /\
    trace st'
    = trace st ++ persisted st'
      ++ map (fun k => Call k (tasks st)) (seq 0 (S (length pre))).
Proof.
  intros Hwf Hobs Hpre Htext Htrim.
  set (t := newTaskOf now random36 iso taskData s).
  destruct (unshift_state t st Hwf) as (Hseq & _ & Hderef & _).
  fold (unshifted t st) in Hseq, Hderef.
  set (st1 := unshifted t st) in *.
  assert (Hrun : notifyObservers (saveTasks st1)
                 = Throw e (emit (map (fun k => Call k (tasks st))
                                      (seq 0 (S (length pre))))
                                 (saveTasks st1))).
  { unfold notifyObservers. rewrite saveTasks_observers.
    change (observers st1) with (observers st). rewrite Hobs.
    rewrite forEachObserver_app_passive by done.
    rewrite forEachObserver_throwing, emit_emit, tasks_emit, saveTasks_tasks.
    change (tasks st1) with (tasks st).
    replace (S (length pre)) with (length pre + 1) by lia.
    by rewrite seq_app, map_app. }
  eexists. split.
  { rewrite (addTask_accepted _ _ _ _ s) by done. fold t. fold st1.
    rewrite Hrun. reflexivity. }
  unfold persisted, storeTasks, taskSeq. simpl.
  rewrite saveTasks_heap, saveTasks_tasks, saveTasks_trace, saveTasks_quota.
  repeat split; try done.
  - intros Hq. unfold saveTasks. change (localStorage st1) with (localStorage st).
    by rewrite Hq.
  - by rewrite <- app_assoc.
Qed.

Lemma addTask_throws_after_storing_when_observer_throws_witness :
  exists st',
    addTask 1700000000002 (str "0.zz1") (str "2023-11-14T22:13:20.002Z")
            (taskText "Call mum") brittleStore
    = Throw (Error "render failed") st' /\
    length (taskSeq st') = 3.
Proof.
  destruct (addTask_throws_after_storing_when_observer_throws
              1700000000002 (str "0.zz1") (str "2023-11-14T22:13:20.002Z")
              (taskText "Call mum") (str "Call mum") (Error "render failed")
              [render] [render] brittleStore)
    as (st' & Hrun & Hseq & _).
  - wf_by_computation.
  - reflexivity.
  - passive_by_computation.
  - reflexivity.
  - vm_compute. discriminate.
  - exists st'. split; [exact Hrun|]. rewrite Hseq. vm_compute. reflexivity.
Defined.

(** ** loadTasks *)

Lemma map_lookup_total_seq (objs ts : list Task) :
  map (fun o => (objs ++ ts) !!! o) (seq (length objs) (length ts)) = ts.
Proof.
  apply list_eq. intros k. rewrite list_lookup_fmap.
  destruct (decide (k < length ts)) as [Hk|Hk].
  - rewrite lookup_seq_lt by done. simpl.
    rewrite lookup_total_app_r by lia.
    replace (length objs + k - length objs) with k by lia.
    destruct (lookup_lt_is_Some_2 ts k Hk) as [t Ht].
    rewrite Ht. f_equal. by apply list_lookup_total_correct.
  - rewrite lookup_seq_ge by lia. simpl. symmetry. apply lookup_ge_None. lia.
Qed.

(** The state of [loadTasks] once [tasks] is bound to the parsed array. *)
Lemma loadTasks_parsed (ts : list Task) (st : State) :
  item (localStorage st) = Some (Json ts) ->
  exists st1,
    loadTasks st
    = match notifyObservers st1 with
      | Return _ st' => st'
      | Throw _ st' => loadFailed st'
      end /\
    storeTasks st1 = ts /\
    tasks st1 = length (arrays (heap st)) /\
    observers st1 = observers st /\
    localStorage st1 = localStorage st /\
    trace st1 = trace st.
Proof.
  intros Hitem. unfold loadTasks. rewrite Hitem. simpl.
  eexists. split; [reflexivity|].
  unfold storeTasks, taskSeq. simpl. repeat split.
  change (readArray _ _)
    with (readArray
            (fst (newArray (seq (length (objects (heap st))) (length ts))
                    (mkHeap (arrays (heap st)) (objects (heap st) ++ ts))))
            (snd (newArray (seq (length (objects (heap st))) (length ts))
                    (mkHeap (arrays (heap st)) (objects (heap st) ++ ts))))).
  rewrite readArray_newArray. unfold deref. simpl.
  apply map_lookup_total_seq.
Qed.

Lemma loadFailed_empty (st : State) :
  taskSeq (loadFailed st) = [] /\
  objects (heap (loadFailed st)) = objects (heap st) /\
  observers (loadFailed st) = observers st /\
  localStorage (loadFailed st) = localStorage st /\
  trace (loadFailed st) = trace st ++ [Warn].
Proof.
  repeat split. unfold taskSeq, loadFailed. simpl.
  change (readArray _ _)
    with (readArray (fst (newArray [] (heap st))) (snd (newArray [] (heap st)))).
  apply readArray_newArray.
Qed.





(** X6: an observer that throws during [loadTasks] is caught like a parse
    error: the tasks just loaded are dropped and the store ends empty,
    with a warning; the observers after the failing one are not called. *)
Theorem loadTasks_drops_tasks_when_observer_throws
    (ts : list Task) (e : Exn) (pre post : list Callback) (st : State) :
  item (localStorage st) = Some (Json ts) ->
  observers st = pre ++ throwing e :: post ->
  Forall passive pre ->
  answer (getAllTasks (loadTasks st)) = [] /\
  localStorage (loadTasks st) = localStorage st /\
  trace (loadTasks st)
  = trace st
    ++ map (fun k => Call k (length (arrays (heap st)))) (seq 0 (S (length pre)))
    ++ [Warn].
Proof.
  intros Hitem Hobs Hpre.
  destruct (loadTasks_parsed _ _ Hitem)
    as (st1 & Hrun & _ & Htasks & Hobs1 & Hls1 & Htrace).
  rewrite Hrun. unfold notifyObservers. rewrite Hobs1, Hobs.
  rewrite forEachObserver_app_passive by done.
  rewrite forEachObserver_throwing, emit_emit, tasks_emit.
  match goal with |- context [loadFailed ?s] =>
    destruct (loadFailed_empty s) as (Hseq & _ & _ & Hls & Htr) end.
  rewrite answer_getAllTasks, Hseq, Hls, Htr.
  replace (S (length pre)) with (length pre + 1) by lia.
  rewrite seq_app, map_app. unfold emit. simpl.
  rewrite Hls1, Htrace, Htasks. repeat split.
  by rewrite <- !app_assoc.
Qed.

Lemma loadTasks_drops_tasks_when_observer_throws_witness :
  answer (getAllTasks (loadTasks brittleStore)) = [].
Proof.
  apply (loadTasks_drops_tasks_when_observer_throws
           (storeTasks store2) (Error "render failed") [render] [render]
           brittleStore).
  - vm_compute. reflexivity.
  - reflexivity.
  - passive_by_computation.
Defined.

(** ** The stored text *)

Lemma trimStart_split (s : JsString) :
  exists p, s = p ++ trimStart s /\ Forall (fun c => isWhiteSpace c = true) p.
Proof.
  induction s as [|c s (p & Hs & Hp)]; simpl.
  - by exists [].
  - destruct (isWhiteSpace c) eqn:E.
    + exists (c :: p). simpl. split; [by f_equal | by constructor].
    + by exists [].
Qed.

Lemma trimStart_idemp (s : JsString) : trimStart (trimStart s) = trimStart s.
Proof.
  destruct (trimStart s) as [|c r] eqn:E; [done|].
  apply trimStart_head in E. simpl. by rewrite E.
Qed.

Lemma trimEnd_split (s : JsString) :
  exists q, s = trimEnd s ++ q /\ Forall (fun c => isWhiteSpace c = true) q.
Proof.
  unfold trimEnd. destruct (trimStart_split (rev s)) as (p & Hs & Hp).
  exists (rev p). split.
  - rewrite <- rev_app_distr, <- Hs. by rewrite rev_involutive.
  - by apply Forall_rev.
Qed.

Lemma trim_head (s : JsString) (c : N) (r : JsString) :
  trim s = c :: r -> isWhiteSpace c = false.
Proof.
  unfold trim. intros H.
  destruct (trimEnd_split (trimStart s)) as (q & Hs & _).
  rewrite H in Hs. simpl in Hs. by apply trimStart_head in Hs.
Qed.

Lemma trim_last (s : JsString) (c : N) (r : JsString) :
  trim s = r ++ [c] -> isWhiteSpace c = false.
Proof.
  unfold trim, trimEnd. intros H.
  apply (f_equal (@rev N)) in H.
  rewrite rev_involutive, rev_app_distr in H. simpl in H.
  by apply trimStart_head in H.
Qed.

Lemma trim_idemp (s : JsString) : trim (trim s) = trim s.
Proof.
  destruct (trim s) as [|c r] eqn:E; [done|].
  pose proof (trim_head _ _ _ E) as Hc.
  unfold trim at 1. simpl. rewrite Hc.
  rewrite <- E. unfold trim, trimEnd.
  by rewrite rev_involutive, trimStart_idemp.
Qed.

(** X7: the text [addTask] stores is the input without the white space at
    its two ends: the input is white space, then the stored text, then
    white space, and the stored text neither begins nor ends with a
    white-space character. *)
Theorem addTask_stores_trimmed_text
    (now : N) (random36 iso : JsString) (taskData : TaskData)
    (s : JsString) (st : State) :
  wf st ->
  Forall passive (observers st) ->
  td_text taskData = JStr s ->
  trim s <> [] ->
  exists (o : ORef) (st' : State) (before after : JsString),
    addTask now random36 iso taskData st = Return o st' /\
    s = before ++ text (deref (heap st') o) ++ after /\
    Forall (fun c => isWhiteSpace c = true) before /\
    Forall (fun c => isWhiteSpace c = true) after /\
    (forall c r, text (deref (heap st') o) = c :: r -> isWhiteSpace c = false) /\
    (forall c r, text (deref (heap st') o) = r ++ [c] -> isWhiteSpace c = false).
Proof.
  intros Hwf Hobs Htext Htrim.
  set (t := newTaskOf now random36 iso taskData s).
  destruct (unshift_state t st Hwf) as (_ & _ & Hderef & _).
  fold (unshifted t st) in Hderef.
  destruct (trimStart_split s) as (p & Hs & Hp).
  destruct (trimEnd_split (trimStart s)) as (q & Hu & Hq).
  exists (length (objects (heap st))),
         (emit (notified (unshifted t st)) (saveTasks (unshifted t st))), p, q.
  split.
  { rewrite (addTask_accepted _ _ _ _ s) by done. fold t.
    by rewrite publish_passive_eq. }
  replace (deref _ _) with t
    by (symmetry; simpl; by rewrite saveTasks_heap).
  simpl. repeat split; try done.
  - rewrite Hs at 1. f_equal. exact Hu.
  - apply trim_head.
  - apply trim_last.
Qed.

Lemma addTask_stores_trimmed_text_witness :
  exists o st',
    addTask 1700000000002 (str "0.zz1") (str "2023-11-14T22:13:20.002Z")
            (taskText "  Call mum ") store2 = Return o st' /\
    text (deref (heap st') o) = str "Call mum".
Proof.
  destruct (addTask_stores_trimmed_text 1700000000002 (str "0.zz1")
              (str "2023-11-14T22:13:20.002Z") (taskText "  Call mum ")
              (str "  Call mum ") store2)
    as (o & st' & before & after & Hrun & _).
  - wf_by_computation.
  - passive_by_computation.
  - reflexivity.
  - vm_compute. discriminate.
  - exists o, st'. split; [exact Hrun|].
    assert (E : addTask 1700000000002 (str "0.zz1")
                  (str "2023-11-14T22:13:20.002Z") (taskText "  Call mum ") store2
                = Return 2 (finalState
                    (addTask 1700000000002 (str "0.zz1")
                       (str "2023-11-14T22:13:20.002Z")
                       (taskText "  Call mum ") store2)))
      by (vm_compute; reflexivity).
    rewrite E in Hrun. injection Hrun as <- <-. vm_compute. reflexivity.
Defined.

(** ** What the mutations keep true of every task *)

Lemma storeTasks_published (es : list Event) (st : State) :
  storeTasks (emit es (saveTasks st)) = storeTasks st.
Proof.
  unfold storeTasks, taskSeq. simpl. by rewrite saveTasks_heap, saveTasks_tasks.
Qed.

Lemma Forall_storeTasks (P : Task -> Prop) (st : State) :
  Forall P (storeTasks st)
  <-> Forall (fun o => P (deref (heap st) o)) (taskSeq st).
Proof. unfold storeTasks. apply Forall_fmap. Qed.

(** A property of tasks that holds of the new task and survives
    [toggled] holds of every stored task after any of the four
    mutations. *)
Lemma task_property_kept (P : Task -> Prop) (st : State) :
  wf st ->
  Forall passive (observers st) ->
  (forall iso t, P t -> P (toggled iso t)) ->
  Forall P (storeTasks st) ->
  (forall now random36 iso taskData,
      (forall s, td_text taskData = JStr s -> trim s <> [] ->
                 P (newTaskOf now random36 iso taskData s)) ->
      Forall P (storeTasks (finalState (addTask now random36 iso taskData st))))
  /\ (forall iso a, Forall P (storeTasks (finalState (toggleTask iso a st))))
  /\ (forall a, Forall P (storeTasks (finalState (deleteTask a st))))
  /\ (forall a b, Forall P (storeTasks (finalState (reorderTasks a b st)))).
Proof.
  intros Hwf Hobs Htog HP. split; [|split; [|split]].
  - intros now random36 iso taskData Hnew.
    destruct (td_text taskData) as [| | | |s] eqn:Htext;
      try (unfold addTask; rewrite Htext; exact HP).
    destruct (decide (trim s = [])) as [Hnil|Hne].
    { unfold addTask. rewrite Htext. simpl. rewrite Hnil. exact HP. }
    rewrite (addTask_accepted _ _ _ _ s) by done.
    rewrite publish_passive_eq by done. simpl.
    rewrite storeTasks_published.
    destruct (unshift_state (newTaskOf now random36 iso taskData s) st Hwf)
      as (Hseq & _ & Hderef & Hold).
    fold (unshifted (newTaskOf now random36 iso taskData s) st)
      in Hseq, Hderef, Hold.
    apply Forall_storeTasks. rewrite Hseq. constructor.
    + rewrite Hderef. by apply Hnew.
    + apply Forall_storeTasks in HP.
      rewrite list.Forall_forall in HP, Hold. apply list.Forall_forall.
      intros o Ho. rewrite Hold by done. by apply HP.
  - intros iso a. unfold toggleTask.
    destruct (arrayFind _ _ _) as [o|] eqn:Hfind; [|exact HP].
    rewrite publish_passive_eq by done. simpl.
    rewrite storeTasks_published.
    destruct (arrayFind_Some _ _ _ _ Hfind) as (n & Hn & _).
    assert (Hoin : o ∈ taskSeq st) by (apply list_elem_of_lookup; eauto).
    destruct Hwf as [_ Ho]. rewrite list.Forall_forall in Ho.
    apply Forall_storeTasks in HP. rewrite list.Forall_forall in HP.
    apply Forall_storeTasks, list.Forall_forall.
    unfold taskSeq. simpl. fold (taskSeq st). intros o' Ho'.
    destruct (decide (o = o')) as [<-|Hne].
    + rewrite deref_writeObject by (by apply Ho). by apply Htog, HP.
    + rewrite deref_writeObject_ne by done. by apply HP.
  - intros a. destruct (deleteTask_filtered a st) as [Hseq Hrun].
    simpl in Hseq, Hrun. rewrite Hrun. set (st1 := setTasks _ _) in *.
    assert (H1 : Forall P (storeTasks st1)).
    { apply Forall_storeTasks. rewrite Hseq.
      apply Forall_storeTasks in HP. rewrite list.Forall_forall in HP.
      apply list.Forall_forall. intros o Ho.
      apply arrayFilter_elem_of in Ho as [Ho _]. by apply HP. }
    case_bool_decide; [|exact H1].
    rewrite publish_passive_eq by done. simpl. by rewrite storeTasks_published.
  - intros a b.
    destruct (decide (a ∈ ids st)) as [Ha|Ha];
      [|by rewrite reorderTasks_missing by (by left)].
    destruct (decide (b ∈ ids st)) as [Hb|Hb];
      [|by rewrite reorderTasks_missing by (by right)].
    destruct (reorderTasks_present _ _ st Ha Hb Hobs)
      as (i & j & od & ot & st' & _ & _ & Hod & _ & _ & _ & _ & _
          & Hrun & Hseq & Hobj & _).
    rewrite Hrun. simpl.
    apply Forall_storeTasks in HP.
    apply Forall_storeTasks. unfold deref. rewrite Hseq, Hobj.
    fold (deref (heap st)).
    apply Forall_app. split.
    + by apply Forall_take, Forall_delete.
    + constructor; [|by apply Forall_drop, Forall_delete].
      rewrite list.Forall_forall in HP. apply HP.
      apply list_elem_of_lookup. eauto.
Qed.

Lemma observers_perform (m : Mutation) (st : State) :
  Forall passive (observers st) -> observers (perform m st) = observers st.
Proof.
  intros Hobs. destruct m as [now r iso td|iso a|a|a b]; simpl.
  - unfold addTask. destruct (td_text td); try done. simpl.
    destruct (trim s); [done|].
    rewrite publish_passive_eq by done. simpl. by rewrite saveTasks_observers.
  - unfold toggleTask. destruct (arrayFind _ _ _); [|done].
    rewrite publish_passive_eq by done. simpl. by rewrite saveTasks_observers.
  - destruct (deleteTask_filtered a st) as [_ Hrun]. simpl in Hrun.
    rewrite Hrun. case_bool_decide; [|done].
    rewrite publish_passive_eq by done. simpl. by rewrite saveTasks_observers.
  - unfold reorderTasks. destruct (_ || _)%bool; [done|]. simpl.
    rewrite publish_passive_eq by done. simpl. by rewrite saveTasks_observers.
Qed.

Lemma wf_perform (m : Mutation) (st : State) :
  wf st -> Forall passive (observers st) -> wf (perform m st).
Proof.
  intros Hwf Hobs. destruct m; simpl.
  - by apply wf_addTask.
  - by apply wf_toggleTask.
  - by apply wf_deleteTask.
  - by apply wf_reorderTasks.
Qed.

Lemma observers_registered (cbs : list Callback) (st : State) :
  observers (fold_left (fun st cb => subscribe cb st) cbs st)
  = observers st ++ cbs.
Proof.
  revert st. induction cbs as [|cb cbs IH]; intros st; simpl.
  - by rewrite app_nil_r.
  - rewrite IH. simpl. by rewrite <- app_assoc.
Qed.

Lemma registered_keeps (cbs : list Callback) (st : State) :
  wf st -> storeTasks st = [] ->
  wf (fold_left (fun st cb => subscribe cb st) cbs st) /\
  storeTasks (fold_left (fun st cb => subscribe cb st) cbs st) = [].
Proof.
  revert st. induction cbs as [|cb cbs IH]; intros st Hwf Hnil; simpl; [done|].
  by apply IH.
Qed.

(** Throughout a session every stored task has a property that holds of
    each new task and survives [toggled]. *)
Lemma task_property_in_session (P : Task -> Prop) (ls : Storage)
    (cbs : list Callback) (ms : list Mutation) :
  Forall passive cbs ->
  (forall iso t, P t -> P (toggled iso t)) ->
  (forall now random36 iso taskData s, trim s <> [] ->
      P (newTaskOf now random36 iso taskData s)) ->
  Forall P (storeTasks (session ls cbs ms)).
Proof.
  intros Hcbs Htog Hnew. unfold session.
  set (st0 := fold_left _ cbs _).
  assert (H0 : wf st0 /\ Forall passive (observers st0)
               /\ Forall P (storeTasks st0)).
  { destruct (registered_keeps cbs (init ls) (wf_init ls) eq_refl) as [Hwf Hnil].
    split; [done|]. split.
    - unfold st0. by rewrite observers_registered.
    - fold st0 in Hnil. rewrite Hnil. constructor. }
  clearbody st0. revert st0 H0.
  induction ms as [|m ms IH]; intros st (Hwf & Hobs & HP); simpl; [done|].
  apply IH. split; [by apply wf_perform|]. split.
  - by rewrite observers_perform.
  - destruct (task_property_kept P st Hwf Hobs Htog HP) as (Ha & Ht & Hd & Hr).
    destruct m; simpl.
    + apply Ha. intros s _ Hs. by apply Hnew.
    + apply Ht.
    + apply Hd.
    + apply Hr.
Qed.

(** X8: in a session (observers that leave the heap alone, any sequence
    of [addTask], [toggleTask], [deleteTask] and [reorderTasks] calls with
    any arguments and any clock and random readings) every stored task
    has a text that is not empty and has no white space at its ends. *)
Theorem stored_texts_are_trimmed_and_not_empty (ls : Storage)
    (cbs : list Callback) (ms : list Mutation) :
  Forall passive cbs ->
  Forall textTrimmed (storeTasks (session ls cbs ms)).
Proof.
  intros Hcbs. apply task_property_in_session; try done.
  intros now random36 iso taskData s Hs. split; [done|]. apply trim_idemp.
Qed.

(** X9: in a session every stored task has a timestamp in [completedAt]
    exactly when it is completed. *)
Theorem completedAt_is_dated_iff_completed (ls : Storage)
    (cbs : list Callback) (ms : list Mutation) :
  Forall passive cbs ->
  Forall completionDated (storeTasks (session ls cbs ms)).
Proof.
  intros Hcbs. apply task_property_in_session; try done.
  intros iso t _. unfold completionDated. simpl.
  by destruct (completed t).
Qed.

Lemma stored_texts_are_trimmed_and_not_empty_witness :
  Forall textTrimmed
         (storeTasks (session emptyStorage [fun _ h => (Normal, h)]
                              sampleMutations)).
Proof.
  apply stored_texts_are_trimmed_and_not_empty.
  repeat constructor.
Defined.

Lemma completedAt_is_dated_iff_completed_witness :
  Forall completionDated
         (storeTasks (session emptyStorage [fun _ h => (Normal, h)]
                              sampleMutations)).
Proof.
  apply completedAt_is_dated_iff_completed.
  repeat constructor.
Defined.

Example sampleMutations_result :
  map (fun t => (text t, completed t))
      (storeTasks (session emptyStorage [fun _ h => (Normal, h)]
                           sampleMutations))
  = [(str "Buy milk", true)].
Proof. vm_compute. reflexivity. Qed.

(** ** deleteTask, twice *)

Lemma deleteTask_final (a : JsString) (st : State) :
  Forall passive (observers st) ->
  let st' := finalState (deleteTask a st) in
  taskSeq st'
  = arrayFilter (fun t => negb (bool_decide (id t = a))) (heap st) (taskSeq st) /\
  objects (heap st') = objects (heap st) /\
  observers st' = observers st.
Proof.
  intros Hobs. destruct (deleteTask_filtered a st) as [Hseq Hrun].
  simpl in Hseq, Hrun. simpl. rewrite Hrun. set (st1 := setTasks _ _) in *.
  case_bool_decide; [|done].
  rewrite publish_passive_eq by done. simpl.
  unfold taskSeq in *. simpl.
  by rewrite saveTasks_heap, saveTasks_tasks, saveTasks_observers.
Qed.

(** X10: whatever the store holds, after [deleteTask a] no task has the
    id [a], and a second [deleteTask a] returns false, saves nothing, calls
    nobody and leaves the tasks as the first call left them. *)
Theorem deleteTask_twice (a : JsString) (st : State) :
  Forall passive (observers st) ->
  let st1 := finalState (deleteTask a st) in
  (a ∉ ids st1) /\
  exists st2,
    deleteTask a st1 = Return false st2 /\
    storeTasks st2 = storeTasks st1 /\
    localStorage st2 = localStorage st1 /\
    trace st2 = trace st1.
Proof.
  intros Hobs.
  destruct (deleteTask_final a st Hobs) as (Hseq & Hobj & Hobs1).
  simpl. set (st1 := finalState (deleteTask a st)) in *.
  assert (Hderef : forall o, deref (heap st1) o = deref (heap st) o).
  { intros o. unfold deref. by rewrite Hobj. }
  assert (Hgone : a ∉ ids st1).
  { intros Hin. apply elem_of_ids in Hin. apply List.Exists_exists in Hin.
    destruct Hin as (o & Ho & Hid). apply list_elem_of_In in Ho.
    rewrite Hseq in Ho. apply arrayFilter_elem_of in Ho as [_ Ho].
    rewrite Hderef in Hid. by rewrite Hid in Ho. }
  split; [done|].
  destruct (deleteTask_filtered a st1) as [Hseq2 Hrun2]. simpl in Hseq2, Hrun2.
  set (st2 := setTasks _ _) in *.
  assert (Hall : arrayFilter (fun t => negb (bool_decide (id t = a)))
                             (heap st1) (taskSeq st1) = taskSeq st1).
  { apply arrayFilter_all. apply not_elem_of_ids in Hgone.
    eapply list.Forall_impl; [exact Hgone|]. intros o Ho. simpl in Ho.
    by rewrite Ho. }
  rewrite Hall in Hrun2, Hseq2.
  rewrite bool_decide_eq_false_2 in Hrun2 by (intros H; by apply H).
  exists st2. split; [done|]. split; [|done].
  unfold storeTasks. by rewrite Hseq2.
Qed.

Lemma deleteTask_twice_witness :
  exists st2,
    deleteTask milkId (finalState (deleteTask milkId twins)) = Return false st2 /\
    storeTasks st2 = [].
Proof.
  destruct (deleteTask_twice milkId twins) as (_ & st2 & Hrun & Hts & _).
  - passive_by_computation.
  - exists st2. split; [exact Hrun|]. rewrite Hts. vm_compute. reflexivity.
Defined.

(** ** toggleTask, once *)



(** ** generateId *)

(** X12: two ids made from clock readings with as many digits differ as
    soon as the readings differ or the random suffixes (at most nine
    characters after the first two of the random text) differ; an id is
    the decimal reading followed by that suffix. *)
Theorem generateId_distinct (n m : N) (r1 r2 : JsString) :
  length (toStringN n) = length (toStringN m) ->
  n <> m \/ substr 2 9 r1 <> substr 2 9 r2 ->
  generateId n r1 <> generateId m r2 /\
  length (generateId n r1) <= length (toStringN n) + 9 /\
  take (length (toStringN n)) (generateId n r1) = toStringN n.
Proof.
  intros Hlen Hne. split; [|split].
  - intros Heq. apply generateId_inj in Heq as [? ?]; [|done].
    by destruct Hne.
  - unfold generateId, substr. rewrite length_app, length_take. lia.
  - unfold generateId. by rewrite take_app_length.
Qed.

Lemma generateId_distinct_witness :
  generateId 1700000000000 (str "0.k2x9")
  <> generateId 1700000000001 (str "0.k2x9").
Proof.
  apply (generateId_distinct 1700000000000 1700000000001
           (str "0.k2x9") (str "0.k2x9")).
  - reflexivity.
  - left. discriminate.
Defined.

(** ** The copy of getAllTasks *)

Lemma readArray_perform (m : Mutation) (a : ARef) (st : State) :
  Forall passive (observers st) ->
  a < length (arrays (heap st)) -> a <> tasks st ->
  readArray a (heap (perform m st)) = readArray a (heap st).
Proof.
  intros Hobs Ha Hne. destruct m as [now r iso td|iso b|b|b c]; simpl.
  - unfold addTask. destruct (td_text td); try done. simpl.
    destruct (trim s); [done|].
    rewrite publish_passive_eq by done. simpl. rewrite saveTasks_heap. simpl.
    by rewrite readArray_writeArray_ne.
  - unfold toggleTask. destruct (arrayFind _ _ _); [|done].
    rewrite publish_passive_eq by done. simpl. by rewrite saveTasks_heap.
  - destruct (deleteTask_filtered b st) as [_ Hrun]. simpl in Hrun.
    rewrite Hrun.
    assert (Hold : forall l, readArray a (snd (newArray l (heap st)))
                             = readArray a (heap st))
      by (intros l; by apply readArray_newArray_old).
    case_bool_decide; [|apply Hold].
    rewrite publish_passive_eq by done. simpl. rewrite saveTasks_heap.
    apply Hold.
  - unfold reorderTasks. destruct (_ || _)%bool; [done|]. simpl.
    rewrite publish_passive_eq by done. simpl. rewrite saveTasks_heap. simpl.
    by rewrite !readArray_writeArray_ne.
Qed.

(** X13: the array [getAllTasks] answers is a copy of the live one.  It
    holds the tasks of the store in their order; the call leaves tasks,
    storage and trace alone; whatever is written into the copy, the
    sequence of the store stays; and whatever mutation the store performs
    next, the sequence of the copy stays. *)
Theorem getAllTasks_answers_a_copy (st : State) :
  wf st ->
  Forall passive (observers st) ->
  let copy := fst (getAllTasks st) in
  let st1 := snd (getAllTasks st) in
  copy <> tasks st1 /\
  readArray copy (heap st1) = taskSeq st /\
  taskSeq st1 = taskSeq st /\
  objects (heap st1) = objects (heap st) /\
  localStorage st1 = localStorage st /\
  trace st1 = trace st /\
  (forall l, taskSeq (setHeap (writeArray copy l (heap st1)) st1) = taskSeq st) /\
  (forall m, readArray copy (heap (perform m st1)) = taskSeq st).
Proof.
  intros Hwf Hobs. simpl.
  destruct (getAllTasks_fresh_array st [] Hwf) as (Hne & Hseq & _).
  pose proof (answer_getAllTasks st) as Hans. unfold answer in Hans.
  repeat split; try done.
  - intros l. by destruct (getAllTasks_fresh_array st l Hwf) as (_ & _ & H).
  - intros m. rewrite readArray_perform; try done.
    unfold getAllTasks. simpl. rewrite length_app. simpl. lia.
Qed.

Lemma getAllTasks_answers_a_copy_witness :
  readArray (fst (getAllTasks store2))
            (heap (perform (Delete milkId) (snd (getAllTasks store2))))
  = taskSeq store2.
Proof.
  destruct (getAllTasks_answers_a_copy store2) as (_ & _ & _ & _ & _ & _ & _ & H).
  - wf_by_computation.
  - passive_by_computation.
  - apply H.
Defined.

(** ** reorderTasks keeps the tasks *)

Lemma filter_length_Permutation {A : Type} (f : A -> bool) (l k : list A) :
  l ≡ₚ k -> length (List.filter f l) = length (List.filter f k).
Proof.
  induction 1 as [|x l k _ IH|x y l|l k m _ IH1 _ IH2]; simpl.
  - done.
  - destruct (f x); simpl; by rewrite IH.
  - by destruct (f x), (f y).
  - by rewrite IH1.
Qed.

(** X14: a drag never loses, repeats or alters a task.  Whatever the two
    ids, after [reorderTasks] the store holds the task objects it held,
    each as often as before and unchanged, so the statistics are the
    same. *)
Theorem reorderTasks_permutes (a b : JsString) (st : State) :
  Forall passive (observers st) ->
  let st' := finalState (reorderTasks a b st) in
  taskSeq st' ≡ₚ taskSeq st /\
  objects (heap st') = objects (heap st) /\
  storeTasks st' ≡ₚ storeTasks st /\
  getStats st' = getStats st.
Proof.
  intros Hobs. simpl.
  assert (H : taskSeq (finalState (reorderTasks a b st)) ≡ₚ taskSeq st /\
              objects (heap (finalState (reorderTasks a b st)))
              = objects (heap st)).
  { destruct (decide (a ∈ ids st)) as [Ha|Ha];
      [|by rewrite reorderTasks_missing by (by left)].
    destruct (decide (b ∈ ids st)) as [Hb|Hb];
      [|by rewrite reorderTasks_missing by (by right)].
    destruct (reorderTasks_present _ _ st Ha Hb Hobs)
      as (i & j & od & ot & st' & _ & _ & Hod & _ & _ & _ & _ & _
          & Hrun & Hseq & Hobj & _).
    rewrite Hrun. simpl. split; [|done].
    rewrite Hseq, <- Permutation_middle, take_drop.
    symmetry. by apply delete_Permutation. }
  destruct H as [Hperm Hobj].
  assert (Hderef : deref (heap (finalState (reorderTasks a b st)))
                   = deref (heap st)).
  { unfold deref. by rewrite Hobj. }
  split; [done|]. split; [done|]. split.
  - unfold storeTasks. rewrite Hderef. by apply Permutation_map.
  - unfold getStats, arrayFilter. rewrite Hderef.
    rewrite (Permutation_length Hperm).
    by rewrite (filter_length_Permutation _ _ _ Hperm).
Qed.

Lemma reorderTasks_permutes_witness :
  getStats (finalState (reorderTasks milkId dogId store2)) = getStats store2.
Proof.
  destruct (reorderTasks_permutes milkId dogId store2) as (_ & _ & _ & H).
  - passive_by_computation.
  - exact H.
Defined.

(** X15: where the dragged task lands.  With two different stored ids,
    the dragged task first at index [i] and the target first at [j]: if
    the dragged task was before the target ([i < j]) it ends right after
    it, the target having moved to [j - 1]; if it was after the target
    ([j < i]) it ends right before it, the target having moved to
    [j + 1]. *)
Theorem reorderTasks_lands_beside_target (a b : JsString) (st : State) :
  a <> b ->
  a ∈ ids st -> b ∈ ids st ->
  Forall passive (observers st) ->
  exists (i j : nat) (od ot : ORef) (st' : State),
    taskSeq st !! i = Some od /\ id (deref (heap st) od) = a /\
    taskSeq st !! j = Some ot /\ id (deref (heap st) ot) = b /\
    reorderTasks a b st = Return true st' /\
    taskSeq st' !! j = Some od /\
    (i < j -> taskSeq st' !! (j - 1) = Some ot) /\
    (j < i -> taskSeq st' !! (j + 1) = Some ot).
Proof.
  intros Hab Ha Hb Hobs.
  destruct (reorderTasks_present a b st Ha Hb Hobs)
    as (i & j & od & ot & st' & _ & _ & Hod & Hida & _ & Hot & Hidb & _
        & Hrun & Hseq & _).
  exists i, j, od, ot, st'.
  assert (Hlen : length (delete i (taskSeq st)) = length (taskSeq st) - 1).
  { apply length_delete. by exists od. }
  assert (Hj : j < length (taskSeq st)) by (by eapply lookup_lt_Some).
  assert (Htake : length (take j (delete i (taskSeq st))) = j).
  { apply length_take_le. lia. }
  repeat split; try done.
  - rewrite Hseq. by apply list_lookup_middle.
  - intros Hij. rewrite Hseq, lookup_app_l by lia.
    rewrite lookup_take_lt by lia.
    rewrite list_lookup_delete_ge by lia.
    by replace (S (j - 1)) with j by lia.
  - intros Hji. rewrite Hseq, lookup_app_r by lia.
    rewrite Htake. replace (j + 1 - j) with 1 by lia. simpl.
    rewrite lookup_drop, Nat.add_0_r.
    by rewrite list_lookup_delete_lt.
Qed.

Lemma reorderTasks_lands_beside_target_witness :
  exists st',
    reorderTasks dogId milkId store2 = Return true st' /\
    taskSeq store2 = [1; 0] /\ taskSeq st' = [0; 1].
Proof.
  destruct (reorderTasks_lands_beside_target dogId milkId store2)
    as (i & j & od & ot & st' & _ & _ & _ & _ & Hrun & _).
  - vm_compute. discriminate.
  - in_by_computation.
  - in_by_computation.
  - passive_by_computation.
  - exists st'. split; [exact Hrun|].
    assert (E : reorderTasks dogId milkId store2
                = Return true (finalState (reorderTasks dogId milkId store2)))
      by (vm_compute; reflexivity).
    rewrite E in Hrun. injection Hrun as <-.
    split; vm_compute; reflexivity.
Defined.

(** ** What no mutation edits *)

Lemma reorderTasks_permutes_objects (a b : JsString) (st : State) :
  Forall passive (observers st) ->
  objects (heap (finalState (reorderTasks a b st))) = objects (heap st).
Proof.
  intros Hobs. unfold reorderTasks. destruct (_ || _)%bool; [done|]. simpl.
  rewrite publish_passive_eq by done. simpl. by rewrite saveTasks_heap.
Qed.

Lemma perform_keeps_details (m : Mutation) (st : State) (o : ORef) :
  Forall passive (observers st) ->
  o < length (objects (heap st)) ->
  o < length (objects (heap (perform m st))) /\
  sameDetails (deref (heap st) o) (deref (heap (perform m st)) o).
Proof.
  intros Hobs Ho.
  assert (Hsame : o < length (objects (heap st)) /\
                  sameDetails (deref (heap st) o) (deref (heap st) o))
    by (by repeat split).
  destruct m as [now r iso td|iso b|b|b c]; simpl.
  - unfold addTask. destruct (td_text td); try done. simpl.
    destruct (trim s); [done|].
    rewrite publish_passive_eq by done. simpl. rewrite saveTasks_heap. simpl.
    rewrite length_app. split; [lia|].
    unfold deref. simpl. rewrite lookup_total_app_l by done. by repeat split.
  - unfold toggleTask. destruct (arrayFind _ _ _) as [o0|]; [|done].
    rewrite publish_passive_eq by done. simpl. rewrite saveTasks_heap. simpl.
    rewrite length_insert. split; [done|].
    destruct (decide (o0 = o)) as [->|Hne].
    + rewrite deref_writeObject by done. by repeat split.
    + rewrite deref_writeObject_ne by done. by repeat split.
  - destruct (deleteTask_final b st Hobs) as (_ & Hobj & _).
    unfold deref. by rewrite Hobj.
  - pose proof (reorderTasks_permutes_objects b c st Hobs) as Hobj.
    unfold deref. by rewrite Hobj.
Qed.

(** X16: no mutation edits a task.  Through any sequence of [addTask],
    [toggleTask], [deleteTask] and [reorderTasks] calls a task object
    keeps its id, text, creation time, due date and priority; only
    [completed] and [completedAt] can change. *)
Theorem task_details_never_change (ms : list Mutation) (st : State) (o : ORef) :
  Forall passive (observers st) ->
  o < length (objects (heap st)) ->
  sameDetails (deref (heap st) o)
              (deref (heap (fold_left (fun s m => perform m s) ms st)) o).
Proof.
  revert st. induction ms as [|m ms IH]; intros st Hobs Ho; simpl.
  - by repeat split.
  - destruct (perform_keeps_details m st o Hobs Ho) as [Ho' Hd].
    assert (Hobs' : Forall passive (observers (perform m st)))
      by (by rewrite observers_perform).
    specialize (IH (perform m st) Hobs' Ho').
    destruct Hd as (H1 & H2 & H3 & H4 & H5).
    destruct IH as (I1 & I2 & I3 & I4 & I5).
    repeat split; congruence.
Qed.

Lemma task_details_never_change_witness :
  text (deref (heap (fold_left (fun s m => perform m s)
                       [Toggle (str "2023-11-14T22:14:00.000Z") milkId;
                        Reorder milkId dogId; Delete milkId] store2)) 0)
  = str "Buy milk".
Proof.
  destruct (task_details_never_change
              [Toggle (str "2023-11-14T22:14:00.000Z") milkId;
               Reorder milkId dogId; Delete milkId] store2 0)
    as (_ & H & _).
  - passive_by_computation.
  - vm_compute. lia.
  - rewrite H. vm_compute. reflexivity.
Defined.

(** * ThemeManager *)

(** X17: [toggle] always ends on "dark" or "light", never on the theme it
    found: on "light" if the theme was "dark" and on "dark" otherwise.  The
    attribute of the page follows, and the button shows the sun exactly in
    the dark theme.  Two toggles bring back a theme that was "dark" or
    "light"; any other theme ends as "light". *)
Theorem theme_toggle_alternates (pg : ThemeManager.Page) :
  let pg1 := ThemeManager.toggle pg in
  let pg2 := ThemeManager.toggle pg1 in
  (ThemeManager.currentTheme pg1 = ThemeManager.dark \/
   ThemeManager.currentTheme pg1 = ThemeManager.light) /\
  ThemeManager.currentTheme pg1 <> ThemeManager.currentTheme pg /\
  ThemeManager.dataTheme pg1 = Some (ThemeManager.currentTheme pg1) /\
  (forall old, ThemeManager.toggleBtn pg = Some old ->
     ThemeManager.toggleBtn pg1
     = Some (if bool_decide (ThemeManager.currentTheme pg1 = ThemeManager.dark)
             then ThemeManager.sun else ThemeManager.moon)) /\
  (ThemeManager.currentTheme pg = ThemeManager.dark \/
   ThemeManager.currentTheme pg = ThemeManager.light ->
   ThemeManager.currentTheme pg2 = ThemeManager.currentTheme pg) /\
  (ThemeManager.currentTheme pg <> ThemeManager.dark ->
   ThemeManager.currentTheme pg <> ThemeManager.light ->
   ThemeManager.currentTheme pg2 = ThemeManager.light).
Proof.
  assert (Hdl : ThemeManager.dark <> ThemeManager.light) by discriminate.
  assert (H1 : ThemeManager.currentTheme (ThemeManager.toggle pg)
               = if bool_decide (ThemeManager.currentTheme pg = ThemeManager.dark)
                 then ThemeManager.light else ThemeManager.dark).
  { unfold ThemeManager.toggle. simpl.
    by destruct (ThemeManager.setItemThrows pg). }
  assert (H2 : forall p, ThemeManager.currentTheme (ThemeManager.toggle p)
               = if bool_decide (ThemeManager.currentTheme p = ThemeManager.dark)
                 then ThemeManager.light else ThemeManager.dark).
  { intros p. unfold ThemeManager.toggle. simpl.
    by destruct (ThemeManager.setItemThrows p). }
  simpl. rewrite !H2. repeat split.
  - case_bool_decide; [by right | by left].
  - case_bool_decide; congruence.
  - unfold ThemeManager.toggle. simpl.
    by destruct (ThemeManager.setItemThrows pg).
  - intros old Hold. unfold ThemeManager.toggle. simpl.
    destruct (ThemeManager.setItemThrows pg); simpl; by rewrite Hold.
  - intros [H|H]; rewrite H.
    + rewrite (bool_decide_eq_true_2 (ThemeManager.dark = ThemeManager.dark)) by done.
      by rewrite bool_decide_eq_false_2 by congruence.
    + rewrite (bool_decide_eq_false_2 (ThemeManager.light = ThemeManager.dark))
        by congruence.
      by rewrite bool_decide_eq_true_2.
  - intros Hd Hl. rewrite (bool_decide_eq_false_2 _ Hd).
    by rewrite bool_decide_eq_true_2.
Qed.

(** X18: the theme [toggle] chose is what the next visit starts with:
    when the storage takes the write, [init] on any page with that storage
    applies the toggled theme, whatever the system prefers.  When the
    write throws, the theme changes all the same, the storage keeps what
    it held and the console gets one warning. *)
Theorem theme_toggle_is_remembered (pg next : ThemeManager.Page) :
  let pg1 := ThemeManager.toggle pg in
  (ThemeManager.setItemThrows pg = false ->
   ThemeManager.savedTheme next = ThemeManager.savedTheme pg1 ->
   ThemeManager.getItemThrows next = false ->
   ThemeManager.savedTheme pg1 = Some (ThemeManager.currentTheme pg1) /\
   ThemeManager.warnings pg1 = ThemeManager.warnings pg /\
   ThemeManager.currentTheme (ThemeManager.init next)
   = ThemeManager.currentTheme pg1) /\
  (ThemeManager.setItemThrows pg = true ->
   ThemeManager.savedTheme pg1 = ThemeManager.savedTheme pg /\
   ThemeManager.warnings pg1 = S (ThemeManager.warnings pg) /\
   ThemeManager.currentTheme pg1 <> ThemeManager.currentTheme pg).
Proof.
  simpl. split.
  - intros Hset Hsaved Hget. unfold ThemeManager.toggle in *. simpl in *.
    rewrite Hset in *. simpl in *. split; [done|]. split; [done|].
    unfold ThemeManager.init. rewrite Hget, Hsaved.
    by case_bool_decide.
  - intros Hset. unfold ThemeManager.toggle. simpl. rewrite Hset. simpl.
    repeat split. case_bool_decide as H; [by rewrite H|].
    intros Heq. by apply H.
Qed.

Lemma theme_toggle_is_remembered_witness :
  ThemeManager.currentTheme
    (ThemeManager.init
       (ThemeManager.fresh
          (ThemeManager.savedTheme
             (ThemeManager.toggle (ThemeManager.fresh None false)))
          false))
  = ThemeManager.dark.
Proof.
  destruct (theme_toggle_is_remembered (ThemeManager.fresh None false)
              (ThemeManager.fresh
                 (ThemeManager.savedTheme
                    (ThemeManager.toggle (ThemeManager.fresh None false)))
                 false)) as [H _].
  destruct H as (_ & _ & H); [reflexivity..|]. exact H.
Defined.

(** X19: [init] applies the stored theme whenever one is stored and not
    empty, whatever the text is and whatever the system prefers; with
    nothing stored, or the empty text, it applies the system preference;
    when reading the storage throws it warns and applies the system
    preference.  In every case the attribute of the page is the current
    theme and the storage is left as it is. *)
Theorem theme_init_prefers_stored_theme (pg : ThemeManager.Page) :
  let pg' := ThemeManager.init pg in
  ThemeManager.dataTheme pg' = Some (ThemeManager.currentTheme pg') /\
  ThemeManager.savedTheme pg' = ThemeManager.savedTheme pg /\
  (ThemeManager.getItemThrows pg = false ->
   forall theme, ThemeManager.savedTheme pg = Some theme -> theme <> [] ->
     ThemeManager.currentTheme pg' = theme /\
     ThemeManager.warnings pg' = ThemeManager.warnings pg) /\
  (ThemeManager.getItemThrows pg = false ->
   ThemeManager.savedTheme pg = None \/ ThemeManager.savedTheme pg = Some [] ->
   ThemeManager.currentTheme pg' = ThemeManager.getSystemPreference pg /\
   ThemeManager.warnings pg' = ThemeManager.warnings pg) /\
  (ThemeManager.getItemThrows pg = true ->
   ThemeManager.currentTheme pg' = ThemeManager.getSystemPreference pg /\
   ThemeManager.warnings pg' = S (ThemeManager.warnings pg)).
Proof.
  simpl. unfold ThemeManager.init.
  destruct (ThemeManager.getItemThrows pg) eqn:Hget; simpl.
  - split; [done|]. split; [done|]. split; [done|]. split; [done|]. done.
  - split; [done|]. split; [done|]. split; [|split; [|done]].
    + intros _ theme Hsaved Hne. rewrite Hsaved. by destruct theme.
    + intros _ [H|H]; by rewrite H.
Qed.

Lemma theme_init_prefers_stored_theme_witness :
  ThemeManager.currentTheme
    (ThemeManager.init (ThemeManager.fresh (Some (str "sepia")) true))
  = str "sepia".
Proof.
  destruct (theme_init_prefers_stored_theme
              (ThemeManager.fresh (Some (str "sepia")) true))
    as (_ & _ & H & _).
  destruct (H eq_refl (str "sepia") eq_refl) as [E _]; [discriminate|].
  exact E.
Defined.

Lemma theme_toggle_alternates_witness :
  ThemeManager.currentTheme
    (ThemeManager.toggle (ThemeManager.toggle (ThemeManager.fresh None true)))
  = ThemeManager.light.
Proof.
  destruct (theme_toggle_alternates (ThemeManager.fresh None true))
    as (_ & _ & _ & _ & H & _).
  apply H. by right.
Defined.
